(** * proton_ctl: the region-switching control surface of wireproxy-proton

    A shallow embedding of [scripts/modules/proton-ctl/proton_ctl.py] and the
    properties of its region catalogue and region controller.

    - Python [str] values are [string]s; a character is a code point below 256.
    - The files the module touches form the state: the directory CONFIG_DIR,
      the file PROTON_CONFIG and the directory REGIONS_DIR inside it, and
      whether the process may write PROTON_CONFIG.
    - The service manager is an interface ([Host]): the module only sees the
      text [systemctl is-active] prints and whether a [systemctl <action>]
      call raised.
    - Every handler is a computation over the world that either returns a
      value or raises, and appends each system call it makes to a log. *)

From Stdlib Require Import String Ascii List Bool Arith.
Import ListNotations.
Open Scope string_scope.
Open Scope list_scope.


(** ** The [str] methods and [os.path] functions the module calls *)

Module Py.

(** [s.startswith(p)] *)
Definition startswith (s p : string) : bool := String.prefix p s.

(** [s.endswith(p)] *)
Fixpoint endswith (s p : string) : bool :=
  String.eqb s p ||
  match s with
  | EmptyString => false
  | String _ t => endswith t p
  end.

(** [sub in s] *)
Fixpoint contains (sub s : string) : bool :=
  String.prefix sub s ||
  match s with
  | EmptyString => false
  | String _ t => contains sub t
  end.

(** Scan of [s.replace(old, new)] for a non-empty [old]: [skip] counts the
    characters of a match that are still to be passed over. *)
Fixpoint replace_scan (old new : string) (skip : nat) (s : string) : string :=
  match s with
  | EmptyString => EmptyString
  | String c t =>
      match skip with
      | S k => replace_scan old new k t
      | O =>
          if String.prefix old s
          then new ++ replace_scan old new (String.length old - 1) t
          else String c (replace_scan old new 0 t)
      end
  end.

(** [s.replace("", new)]: [new] before every character and at the end. *)
Fixpoint replace_empty (new s : string) : string :=
  match s with
  | EmptyString => new
  | String c t => new ++ String c (replace_empty new t)
  end.

(** [s.replace(old, new)]: every non-overlapping occurrence, left to right. *)
Definition replace (s old new : string) : string :=
  match old with
  | EmptyString => replace_empty new s
  | String _ _ => replace_scan old new 0 s
  end.

(** [s.split(sep)] for a separator of one character, which is what every
    call in the module passes. The result is never empty. *)
Fixpoint split (s : string) (sep : ascii) : list string :=
  match s with
  | EmptyString => [EmptyString]
  | String c t =>
      if Ascii.eqb c sep then EmptyString :: split t sep
      else match split t sep with
           | h :: r => String c h :: r
           | [] => [String c EmptyString]
           end
  end.

(** [l[-1]] of a non-empty list of strings. *)
Definition last_item (l : list string) : string := List.last l EmptyString.

(** [c.isspace()] on the code points below 256: TAB..CR, FS..US, space,
    NEL and the no-break space. *)
Definition isspace (c : ascii) : bool :=
  let n := nat_of_ascii c in
  ((9 <=? n)%nat && (n <=? 13)%nat) || ((28 <=? n)%nat && (n <=? 32)%nat)
  || (n =? 133)%nat || (n =? 160)%nat.

Fixpoint lstrip (s : string) : string :=
  match s with
  | EmptyString => EmptyString
  | String c t => if isspace c then lstrip t else s
  end.

Fixpoint rstrip (s : string) : string :=
  match s with
  | EmptyString => EmptyString
  | String c t =>
      match rstrip t with
      | EmptyString => if isspace c then EmptyString else String c EmptyString
      | r => String c r
      end
  end.

(** [s.strip()] *)
Definition strip (s : string) : string := rstrip (lstrip s).

(** [c.upper()] on the ASCII letters. *)
Definition ascii_upper (c : ascii) : ascii :=
  let n := nat_of_ascii c in
  if (97 <=? n)%nat && (n <=? 122)%nat then ascii_of_nat (n - 32) else c.

Fixpoint map_chars (f : ascii -> ascii) (s : string) : string :=
  match s with
  | EmptyString => EmptyString
  | String c t => String (f c) (map_chars f t)
  end.

(** [os.path.join(a, b)] of posixpath. *)
Definition os_path_join (a b : string) : string :=
  if startswith b "/" then b
  else if String.eqb a "" || endswith a "/" then a ++ b
  else a ++ "/" ++ b.

(** [os.path.basename(p)] of posixpath: what follows the last slash. *)
Definition os_path_basename (p : string) : string := last_item (split p "/").

(** What [f.read()] returns for a file opened in text mode with the default
    [newline=None]: a CR LF pair and a lone CR both arrive as LF. *)
Fixpoint universal_newlines (s : string) : string :=
  match s with
  | EmptyString => EmptyString
  | String c t =>
      if Ascii.eqb c "013"
      then String "010"
             match t with
             | EmptyString => EmptyString
             | String c' t' =>
                 if Ascii.eqb c' "010" then universal_newlines t'
                 else universal_newlines t
             end
      else String c (universal_newlines t)
  end.

End Py.

(** ** A Python [dict] with [str] keys: insertion-ordered, one entry per key *)

Module Dict.

Definition t (V : Type) : Type := list (string * V).

Definition empty {V} : t V := [].

(** [d.get(k)] *)
Fixpoint get {V} (d : t V) (k : string) : option V :=
  match d with
  | [] => None
  | (k', v) :: r => if String.eqb k' k then Some v else get r k
  end.

(** [k in d] *)
Definition mem {V} (k : string) (d : t V) : bool :=
  match get d k with Some _ => true | None => false end.

(** [d[k] = v]: an existing key keeps its place, a new one goes last. *)
Fixpoint set {V} (d : t V) (k : string) (v : V) : t V :=
  match d with
  | [] => [(k, v)]
  | (k', v') :: r =>
      if String.eqb k' k then (k', v) :: r else (k', v') :: set r k v
  end.

(** [list(d.keys())] *)
Definition keys {V} (d : t V) : list string := map fst d.

End Dict.

(** ** What the process gets from the machine it runs on *)

(** The environment variable read at import, [str.upper] (whose case tables
    are Python's) and the service manager: [is_active] is the text that
    [systemctl is-active wireproxy-proton] prints, [None] when
    [subprocess.run] raises (time-out, no such program); [systemctl a] is
    [subprocess.run(["systemctl", a, SERVICE_NAME], check=True, timeout=30)],
    [None] when it returns and [Some (str e)] when it raises [e]. *)
Class Host : Type := {
  PROTON_CONFIG_DIR : option string;
  str_upper : string -> string;
  manager : Type;
  is_active : manager -> option string;
  systemctl : string -> manager -> option string * manager
}.

(** The JSON documents the handlers answer with. *)
#[local] Unset Elimination Schemes.
Inductive json : Type :=
| JNull
| JBool (b : bool)
| JStr (s : string)
| JList (l : list json)
| JObj (fields : list (string * json)).
#[local] Set Elimination Schemes.

Definition json_of_option (o : option string) : json :=
  match o with
  | Some s => JStr s
  | None => JNull
  end.

(** What a view function returns: [jsonify(...)] alone is status 200. *)
Definition response : Type := json * nat.

Inductive exn : Type :=
| IndexError          (* [l[1]] on a list with fewer than two items *)
| KeyError
| FileNotFoundError
| ReadError           (* [open(PROTON_CONFIG, "r")] refused: the OSError
                         raised for a directory or a missing permission *)
| WriteError.         (* [open(PROTON_CONFIG, "w")] refused: the OSError
                         raised for a directory or a missing permission *)

Inductive result (A : Type) : Type :=
| Ok (a : A)
| Raise (e : exn).
Arguments Ok {A} a.
Arguments Raise {A} e.

(** The system calls of the module, as the log records them. *)
Inductive event : Type :=
| EvExists (path : string)
| EvListdir (path : string)
| EvRead (path : string)
| EvMakedirs (path : string)
| EvWrite (path content : string)
| EvChmod (path : string) (mode : nat)
| EvRun (argv : list string).

(** What exists under the name proton.conf: a regular file the process can
    read, with its text, or [Unreadable], something [open] refuses both for
    reading and for writing (a directory, a file without permission). *)
Inductive text_file : Type :=
| Unreadable
| Text (data : string).

(** The directory CONFIG_DIR: the file proton.conf, if there is one, the
    names [os.listdir] gives for the directory regions, in its order, if
    there is one, and whether the process may create proton.conf here, or
    truncate the one that is there and set its mode. *)
Record config_dir : Type := {
  proton_conf : option text_file;
  regions_dir : option (list string);
  conf_writable : bool
}.

(** One entry of the catalogue: [{"file": ..., "name": ...}]. *)
Record region_entry : Type := {
  file : string;
  name : string
}.

Definition nl : string := String "010" EmptyString.

Section Program.

Context {host : Host}.

(** *** Configuration (module level) *)

Definition CONFIG_DIR : string :=
  match PROTON_CONFIG_DIR with
  | Some d => d
  | None => "/etc/wireproxy"
  end.
Definition PROTON_CONFIG : string := Py.os_path_join CONFIG_DIR "proton.conf".
Definition REGIONS_DIR : string := Py.os_path_join CONFIG_DIR "regions".
Definition SERVICE_NAME : string := "wireproxy-proton".
Definition DEFAULT_SOCKS_BIND : string := "127.0.0.1:25345".

(** *** The world and the computations over it *)

(** [fs] is [None] when CONFIG_DIR does not exist. *)
Record World : Type := {
  fs : option config_dir;
  unit_state : manager;
  log : list event
}.

Definition M (A : Type) : Type := World -> result A * World.

Definition ret {A} (a : A) : M A := fun w => (Ok a, w).
Definition raise {A} (e : exn) : M A := fun w => (Raise e, w).
Definition bind {A B} (m : M A) (k : A -> M B) : M B :=
  fun w =>
    match m w with
    | (Ok a, w') => k a w'
    | (Raise e, w') => (Raise e, w')
    end.
Definition lift {A} (r : result A) : M A := fun w => (r, w).

Definition emit (e : event) (w : World) : World :=
  {| fs := fs w; unit_state := unit_state w; log := log w ++ [e] |}.

Definition is_some {A} (o : option A) : bool :=
  match o with Some _ => true | None => false end.

(** [os.path.exists(PROTON_CONFIG)] *)
Definition exists_proton_config : M bool :=
  fun w =>
    (Ok match fs w with
        | Some d => is_some (proton_conf d)
        | None => false
        end,
     emit (EvExists PROTON_CONFIG) w).

(** [os.path.exists(REGIONS_DIR)] *)
Definition exists_regions_dir : M bool :=
  fun w =>
    (Ok match fs w with
        | Some d => is_some (regions_dir d)
        | None => false
        end,
     emit (EvExists REGIONS_DIR) w).

(** [os.listdir(REGIONS_DIR)] *)
Definition listdir_regions_dir : M (list string) :=
  fun w =>
    (match fs w with
     | Some {| regions_dir := Some names |} => Ok names
     | _ => Raise FileNotFoundError
     end,
     emit (EvListdir REGIONS_DIR) w).

(** [with open(PROTON_CONFIG, "r") as f: content = f.read()] *)
Definition read_proton_config : M string :=
  fun w =>
    (match fs w with
     | Some {| proton_conf := Some (Text data) |} =>
         Ok (Py.universal_newlines data)
     | Some {| proton_conf := Some Unreadable |} => Raise ReadError
     | _ => Raise FileNotFoundError
     end,
     emit (EvRead PROTON_CONFIG) w).

(** [os.makedirs(CONFIG_DIR, exist_ok=True)] *)
Definition makedirs_config_dir : M unit :=
  fun w =>
    let w' := emit (EvMakedirs CONFIG_DIR) w in
    if String.eqb CONFIG_DIR "" then (Raise FileNotFoundError, w')
    else
      (Ok tt,
       match fs w with
       | Some _ => w'
       | None =>
           {| fs := Some {| proton_conf := None; regions_dir := None;
                            conf_writable := true |};
              unit_state := unit_state w'; log := log w' |}
       end).

(** Whether [open(PROTON_CONFIG, "w")] succeeds in the directory [d]. *)
Definition may_write (d : config_dir) : bool :=
  conf_writable d &&
  match proton_conf d with
  | Some Unreadable => false
  | _ => true
  end.

(** [with open(PROTON_CONFIG, "w") as f: f.write(content)] *)
Definition write_proton_config (content : string) : M unit :=
  fun w =>
    let w' := emit (EvWrite PROTON_CONFIG content) w in
    match fs w with
    | Some d =>
        if may_write d then
          (Ok tt,
           {| fs := Some {| proton_conf := Some (Text content);
                            regions_dir := regions_dir d;
                            conf_writable := true |};
              unit_state := unit_state w'; log := log w' |})
        else (Raise WriteError, w')
    | None => (Raise FileNotFoundError, w')
    end.

(** [os.chmod(PROTON_CONFIG, 0o600)]; the permission bits are read by no
    operation and are kept in the log only. *)
Definition chmod_proton_config (mode : nat) : M unit :=
  fun w =>
    (match fs w with
     | Some {| proton_conf := Some _ |} => Ok tt
     | _ => Raise FileNotFoundError
     end,
     emit (EvChmod PROTON_CONFIG mode) w).

End Program.

Declare Scope proton_scope.
Notation "x <- m ;; k" := (bind m (fun x => k))
  (at level 61, m at next level, right associativity) : proton_scope.
Notation "m ;;; k" := (bind m (fun _ => k))
  (at level 61, right associativity) : proton_scope.
Open Scope proton_scope.

(** ** The module's functions *)

Section Functions.

Context {host : Host}.

(** The body of the loop of [get_available_regions], for one name [f] of
    the listing. *)
Definition scan_entry (regions : Dict.t region_entry) (f : string)
  : Dict.t region_entry :=
  if Py.endswith f ".conf" then
    let name := Py.replace f ".conf" "" in
    let region_code :=
      if Py.contains "-" name then Py.last_item (Py.split name "-")
      else name in
    Dict.set regions region_code
      {| file := Py.os_path_join REGIONS_DIR f;
         name := str_upper region_code |}
  else regions.

Definition get_available_regions : M (Dict.t region_entry) :=
  present <- exists_regions_dir ;;
  if present then
    names <- listdir_regions_dir ;;
    ret (fold_left scan_entry names Dict.empty)
  else ret Dict.empty.

(** The loop of [get_current_region] over the lines of the file. *)
Fixpoint scan_lines (lines : list string) : result (option string) :=
  match lines with
  | [] => Ok None
  | line :: rest =>
      if Py.startswith line "WGConfig" then
        match nth_error (Py.split line "=") 1 with
        | None => Raise IndexError
        | Some field =>
            let path := Py.strip field in
            let filename := Py.os_path_basename path in
            let name := Py.replace filename ".conf" "" in
            if Py.contains "-" name
            then Ok (Some (Py.last_item (Py.split name "-")))
            else Ok (Some name)
        end
      else scan_lines rest
  end.

Definition get_current_region : M (option string) :=
  present <- exists_proton_config ;;
  if negb present then ret None
  else
    content <- read_proton_config ;;
    lift (scan_lines (Py.split content "010")).

(** [except Exception: return False] covers every failure of the query. *)
Definition get_service_status : M bool :=
  fun w =>
    (Ok match is_active (unit_state w) with
        | Some stdout => String.eqb (Py.strip stdout) "active"
        | None => false
        end,
     emit (EvRun ["systemctl"; "is-active"; SERVICE_NAME]) w).

Definition config_text (wg_config_path socks_bind : string) : string :=
  "# Proton VPN Configuration" ++ nl ++
  "# Managed by proton-ctl API" ++ nl ++
  nl ++
  "WGConfig = " ++ wg_config_path ++ nl ++
  nl ++
  "[Socks5]" ++ nl ++
  "BindAddress = " ++ socks_bind ++ nl.

Definition update_config (wg_config_path socks_bind : string) : M unit :=
  let content := config_text wg_config_path socks_bind in
  makedirs_config_dir ;;;
  write_proton_config content ;;;
  chmod_proton_config 384.

(** Both [except] clauses return [(False, str(e))]. *)
Definition run_systemctl (action : string) : M (bool * option string) :=
  fun w =>
    let (outcome, u) := systemctl action (unit_state w) in
    (Ok match outcome with
        | None => (true, None)
        | Some e => (false, Some e)
        end,
     {| fs := fs w; unit_state := u;
        log := log w ++ [EvRun ["systemctl"; action; SERVICE_NAME]] |}).

Definition json_of_entry (e : region_entry) : json :=
  JObj [("file", JStr (file e)); ("name", JStr (name e))].

Definition json_of_regions (d : Dict.t region_entry) : json :=
  JObj (map (fun kv => (fst kv, json_of_entry (snd kv))) d).

(** GET /api/proton/status *)
Definition status : M response :=
  running <- get_service_status ;;
  region <- get_current_region ;;
  ret (JObj [("running", JBool running);
             ("region", json_of_option region);
             ("config_file", JStr PROTON_CONFIG)], 200).

(** GET /api/proton/regions *)
Definition regions : M response :=
  available <- get_available_regions ;;
  current <- get_current_region ;;
  ret (JObj [("regions", json_of_regions available);
             ("current", json_of_option current)], 200).

(** [not region] for the value of [data.get("region")]. *)
Definition falsy (region : option string) : bool :=
  match region with
  | None => true
  | Some s => String.eqb s ""
  end.

(** [request.get_json() or {}]. [request_json] is what [request.get_json()]
    gives: [None], or a JSON object whose values are strings. *)
Definition request_data (request_json : option (Dict.t string))
  : Dict.t string :=
  match request_json with
  | None | Some [] => Dict.empty
  | Some d => d
  end.

(** POST /api/proton/switch *)
Definition switch_region (request_json : option (Dict.t string)) : M response :=
  let data := request_data request_json in
  let region := Dict.get data "region" in
  match region with
  | None => ret (JObj [("error", JStr "Region required")], 400)
  | Some code =>
      if falsy region
      then ret (JObj [("error", JStr "Region required")], 400)
      else
        available <- get_available_regions ;;
        if negb (Dict.mem code available) then
          ret (JObj [("error", JStr ("Unknown region: " ++ code));
                     ("available", JList (map JStr (Dict.keys available)))],
               400)
        else
          entry <- lift match Dict.get available code with
                        | Some e => Ok e
                        | None => Raise KeyError
                        end ;;
          update_config (file entry) DEFAULT_SOCKS_BIND ;;;
          was_running <- get_service_status ;;
          let switched :=
            (JObj [("success", JBool true);
                   ("region", JStr code);
                   ("restarted", JBool was_running)], 200) in
          if was_running : bool then
            r <- run_systemctl "restart" ;;
            if negb (fst r) then
              ret (JObj [("error",
                          JStr ("Failed to restart: " ++
                                match snd r with
                                | Some error => error
                                | None => "None"
                                end))], 500)
            else ret switched
          else ret switched
  end.

(** POST /api/proton/start *)
Definition start : M response :=
  present <- exists_proton_config ;;
  if negb present then
    ret (JObj [("error",
                JStr "No configuration found. Switch to a region first.")],
         400)
  else
    r <- run_systemctl "start" ;;
    if fst r then ret (JObj [("success", JBool true);
                             ("running", JBool true)], 200)
    else ret (JObj [("error", json_of_option (snd r))], 500).

(** POST /api/proton/stop *)
Definition stop : M response :=
  r <- run_systemctl "stop" ;;
  if fst r then ret (JObj [("success", JBool true);
                           ("running", JBool false)], 200)
  else ret (JObj [("error", json_of_option (snd r))], 500).

(** GET /api/proton/health *)
Definition health : M response :=
  ret (JObj [("status", JStr "ok")], 200).

End Functions.

(** ** A host to run the handlers on

    A service manager with one unit: [start] and [restart] bring a healthy
    unit up and fail on a broken one, [stop] always succeeds. *)

Module Lab.

Record unit_model : Type := {
  running : bool;
  healthy : bool
}.

Definition upper (s : string) : string := Py.map_chars Py.ascii_upper s.

Definition query (u : unit_model) : option string :=
  Some (if running u then "active" ++ nl else "inactive" ++ nl)%string.

Definition act (action : string) (u : unit_model)
  : option string * unit_model :=
  if String.eqb action "stop" then
    (None, {| running := false; healthy := healthy u |})
  else if healthy u then
    (None, {| running := true; healthy := true |})
  else
    (Some "exit status 1", {| running := false; healthy := false |}).

Definition host : Host :=
  {| PROTON_CONFIG_DIR := None;
     str_upper := upper;
     manager := unit_model;
     is_active := query;
     systemctl := act |}.

Definition up : unit_model := {| running := true; healthy := true |}.
Definition down : unit_model := {| running := false; healthy := true |}.
Definition broken : unit_model := {| running := true; healthy := false |}.

(** A world of [host] with the given listing of the regions directory and
    the given proton.conf, and an empty log. *)
Definition world (names : list string) (conf : option text_file) (u : unit_model)
  : @World host :=
  @Build_World host
    (Some {| proton_conf := conf; regions_dir := Some names;
             conf_writable := true |}) u [].

(** The two profiles of the scenarios. *)
Definition jp_us : list string := ["proton-jp.conf"; "proton-us.conf"].

(** The same machine with PROTON_CONFIG_DIR set to the empty string, and
    a world of it. *)
Definition host_empty_dir : Host :=
  {| PROTON_CONFIG_DIR := Some "";
     str_upper := upper;
     manager := unit_model;
     is_active := query;
     systemctl := act |}.

Definition world_empty_dir (names : list string) (conf : option text_file)
           (u : unit_model) : @World host_empty_dir :=
  @Build_World host_empty_dir
    (Some {| proton_conf := conf; regions_dir := Some names;
             conf_writable := true |}) u [].

(** The entries of the catalogue of [jp_us]. *)
Definition jp_entry : region_entry :=
  {| file := "/etc/wireproxy/regions/proton-jp.conf"; name := "JP" |}.
Definition us_entry : region_entry :=
  {| file := "/etc/wireproxy/regions/proton-us.conf"; name := "US" |}.
Definition jp_us_catalogue : Dict.t region_entry :=
  [("jp", jp_entry); ("us", us_entry)].

(** The request body [{"region": code}]. *)
Definition ask (code : string) : option (Dict.t string) :=
  Some [("region", code)].

End Lab.

(** ** Derived views used to state the properties *)

Section Views.

Context {host : Host}.

(** The code [get_available_regions] and [get_current_region] derive from
    a stem: the same two branches in both. *)
Definition code_of_stem (stem : string) : string :=
  if Py.contains "-" stem then Py.last_item (Py.split stem "-") else stem.

(** The code derived from a file name. *)
Definition region_code (f : string) : string :=
  code_of_stem (Py.replace f ".conf" "").

(** Whether proton.conf exists, and what it holds. *)
Definition active_config (w : World) : option text_file :=
  match fs w with
  | Some d => proton_conf d
  | None => None
  end.

(** Whether [update_config] can write proton.conf: CONFIG_DIR is missing
    and will be made, or the process may write the file in it. *)
Definition can_write (w : World) : bool :=
  match fs w with
  | Some d => may_write d
  | None => true
  end.

(** The listing of the regions directory, if the directory exists. *)
Definition profiles (w : World) : option (list string) :=
  match fs w with
  | Some d => regions_dir d
  | None => None
  end.

(** The dictionary [get_available_regions] builds from the listing. *)
Definition catalogue (w : World) : Dict.t region_entry :=
  match profiles w with
  | Some names => fold_left scan_entry names Dict.empty
  | None => Dict.empty
  end.

(** What [get_current_region] makes of proton.conf. *)
Definition current_of (conf : option text_file) : result (option string) :=
  match conf with
  | None => Ok None
  | Some Unreadable => Raise ReadError
  | Some (Text data) =>
      scan_lines (Py.split (Py.universal_newlines data) "010")
  end.

(** What the unit looks like to [get_service_status]. *)
Definition reports_running (u : manager) : bool :=
  match is_active u with
  | Some stdout => String.eqb (Py.strip stdout) "active"
  | None => false
  end.

(** The calls of a switch from the write to the status query. *)
Definition switch_calls (wg_config_path : string) : list event :=
  [EvMakedirs CONFIG_DIR;
   EvWrite PROTON_CONFIG (config_text wg_config_path DEFAULT_SOCKS_BIND);
   EvChmod PROTON_CONFIG 384;
   EvRun ["systemctl"; "is-active"; SERVICE_NAME]].

(** The answers of the handlers that the properties name. *)
Definition region_required : response :=
  (JObj [("error", JStr "Region required")], 400).

Definition unknown_region (code : string) (available : list string)
  : response :=
  (JObj [("error", JStr ("Unknown region: " ++ code));
         ("available", JList (map JStr available))], 400).

Definition restart_failed (error : string) : response :=
  (JObj [("error", JStr ("Failed to restart: " ++ error))], 500).

Definition switched (code : string) (restarted : bool) : response :=
  (JObj [("success", JBool true);
         ("region", JStr code);
         ("restarted", JBool restarted)], 200).

Definition not_configured : response :=
  (JObj [("error",
          JStr "No configuration found. Switch to a region first.")], 400).

Definition started : response :=
  (JObj [("success", JBool true); ("running", JBool true)], 200).

Definition stopped : response :=
  (JObj [("success", JBool true); ("running", JBool false)], 200).

Definition manager_failed (error : string) : response :=
  (JObj [("error", JStr error)], 500).

(** The calls that only look at the file system. *)
Definition read_only (e : event) : bool :=
  match e with
  | EvExists _ | EvListdir _ | EvRead _ => true
  | _ => false
  end.

End Views.

(** ** The rules as the specification words them *)

Module Spec.

(** The text after the first [c], if [c] occurs. *)
Fixpoint after_first (c : ascii) (s : string) : option string :=
  match s with
  | EmptyString => None
  | String x t => if Ascii.eqb x c then Some t else after_first c t
  end.

(** The text before the first [c]; all of [s] if [c] does not occur. *)
Fixpoint before_first (c : ascii) (s : string) : string :=
  match s with
  | EmptyString => EmptyString
  | String x t =>
      if Ascii.eqb x c then EmptyString else String x (before_first c t)
  end.

(** The substring between the first and the second [c]. *)
Definition between_first_and_second (c : ascii) (s : string) : option string :=
  option_map (before_first c) (after_first c s).

Fixpoint occurs (c : ascii) (s : string) : bool :=
  match s with
  | EmptyString => false
  | String x t => Ascii.eqb x c || occurs c t
  end.

(** The suffix after the last [c]; all of [s] if [c] does not occur. *)
Fixpoint after_last (c : ascii) (s : string) : string :=
  match s with
  | EmptyString => EmptyString
  | String x t =>
      if occurs c t then after_last c t
      else if Ascii.eqb x c then t else s
  end.



(** The first line that starts with [p]. *)
Definition first_line_with_prefix (p : string) (lines : list string)
  : option string :=
  List.find (fun l => String.prefix p l) lines.

(** A file name without its trailing extension, and nothing else removed. *)
Definition without_extension (f ext : string) : string :=
  if Py.endswith f ext
  then String.substring 0 (String.length f - String.length ext) f
  else f.

(** The code of a path by the rule of the data model: the file name
    without its extension, then the suffix after the last [-]. *)
Definition code_of_path (path : string) : string :=
  after_last "-" (without_extension (after_last "/" path) ".conf").

End Spec.

(** ** Facts about the string functions *)

Module PyFacts.

Import Py.

Lemma append_assoc (a b c : string) :
  ((a ++ b) ++ c = a ++ b ++ c)%string.
Proof.
  induction a as [| x a IH]; [reflexivity |]. cbn. now rewrite IH.
Qed.

Lemma prefix_nil (s : string) : String.prefix "" s = true.
Proof. destruct s; reflexivity. Qed.

Lemma prefix_cons (a b : ascii) (p s : string) :
  String.prefix (String a p) (String b s)
  = Ascii.eqb a b && String.prefix p s.
Proof.
  simpl. destruct (ascii_dec a b) as [e | n].
  - subst b. now rewrite Ascii.eqb_refl.
  - apply Ascii.eqb_neq in n. now rewrite n.
Qed.

Lemma prefix_app (p s : string) : String.prefix p (p ++ s) = true.
Proof.
  induction p as [| c p IH].
  - apply prefix_nil.
  - change (String c p ++ s)%string with (String c (p ++ s)).
    rewrite prefix_cons, Ascii.eqb_refl. exact IH.
Qed.

(** [sub in s] for a one-character [sub] is an occurrence of the character. *)
Lemma contains_char (c : ascii) (s : string) :
  contains (String c "") s = Spec.occurs c s.
Proof.
  induction s as [| x t IH]; [reflexivity |].
  cbn [contains Spec.occurs].
  rewrite prefix_cons, prefix_nil, andb_true_r, IH.
  now rewrite Ascii.eqb_sym.
Qed.

Lemma occurs_app (c : ascii) (a b : string) :
  Spec.occurs c (a ++ b) = Spec.occurs c a || Spec.occurs c b.
Proof.
  induction a as [| x a IH]; [reflexivity |].
  cbn. rewrite IH. now rewrite orb_assoc.
Qed.

(** *** [split] *)

Lemma split_not_nil (s : string) (c : ascii) : split s c <> [].
Proof.
  destruct s as [| x t]; cbn; [discriminate |].
  destruct (Ascii.eqb x c); [discriminate |].
  destruct (split t c); discriminate.
Qed.

Lemma split_cons_other (x c : ascii) (t : string) :
  Ascii.eqb x c = false ->
  exists h r, split t c = h :: r /\ split (String x t) c = String x h :: r.
Proof.
  intros Hx. cbn. rewrite Hx.
  destruct (split t c) as [| h r] eqn:E.
  - now apply split_not_nil in E.
  - now exists h, r.
Qed.

(** The pieces of [a ++ c ++ b] are the pieces of [a], then those of [b]. *)
Lemma split_app (a b : string) (c : ascii) :
  split (a ++ String c b) c = split a c ++ split b c.
Proof.
  induction a as [| x a IH].
  - cbn. now rewrite Ascii.eqb_refl.
  - change (String x a ++ String c b)%string with (String x (a ++ String c b)).
    destruct (Ascii.eqb x c) eqn:Hx.
    + cbn. rewrite Hx. cbn. now rewrite IH.
    + destruct (split_cons_other x c a Hx) as (h & r & Ea & ->).
      destruct (split_cons_other x c (a ++ String c b) Hx) as (h' & r' & Eab & ->).
      rewrite IH, Ea in Eab. cbn in Eab. now injection Eab as <- <-.
Qed.

Lemma split_absent (s : string) (c : ascii) :
  Spec.occurs c s = false -> split s c = [s].
Proof.
  induction s as [| x t IH]; [reflexivity |].
  cbn. intros H. apply orb_false_elim in H as [Hx Ht].
  rewrite Hx, (IH Ht). reflexivity.
Qed.

Lemma split_occurs (s : string) (c : ascii) :
  Spec.occurs c s = true -> exists h h' r, split s c = h :: h' :: r.
Proof.
  induction s as [| x t IH]; [discriminate |].
  cbn. destruct (Ascii.eqb x c) eqn:Hx; cbn.
  - intros _. destruct (split t c) as [| h r] eqn:E.
    + now apply split_not_nil in E.
    + now exists "", h, r.
  - intros Ht. destruct (IH Ht) as (h & h' & r & ->).
    now exists (String x h), h', r.
Qed.

Lemma last_item_cons (x : string) (l : list string) :
  l <> [] -> last_item (x :: l) = last_item l.
Proof. destruct l; [congruence | reflexivity]. Qed.

Lemma last_item_app (l1 l2 : list string) :
  l2 <> [] -> last_item (l1 ++ l2) = last_item l2.
Proof.
  intros H. induction l1 as [| x l1 IH]; [reflexivity |].
  cbn [app]. rewrite last_item_cons; [exact IH |].
  destruct l1; cbn; [exact H | discriminate].
Qed.

Lemma after_last_absent (s : string) (c : ascii) :
  Spec.occurs c s = false -> Spec.after_last c s = s.
Proof.
  destruct s as [| x t]; [reflexivity |].
  cbn. intros H. apply orb_false_elim in H as [Hx Ht].
  now rewrite Ht, Hx.
Qed.

(** The last piece of a split is the suffix after the last separator. *)
Lemma last_item_split (s : string) (c : ascii) :
  last_item (split s c) = Spec.after_last c s.
Proof.
  induction s as [| x t IH]; [reflexivity |].
  destruct (Ascii.eqb x c) eqn:Hx.
  - cbn [split Spec.after_last]. rewrite Hx.
    rewrite last_item_cons by apply split_not_nil.
    rewrite IH. destruct (Spec.occurs c t) eqn:Ht; [reflexivity |].
    now apply after_last_absent.
  - destruct (split_cons_other x c t Hx) as (h & r & Et & ->).
    cbn [Spec.after_last]. rewrite Hx.
    destruct (Spec.occurs c t) eqn:Ht.
    + destruct (split_occurs t c Ht) as (h1 & h2 & r2 & E2).
      rewrite E2 in Et. injection Et as <- <-.
      rewrite <- IH, E2. reflexivity.
    + rewrite (split_absent t c Ht) in Et. now injection Et as <- <-.
Qed.

Lemma split_head (s : string) (c : ascii) :
  nth_error (split s c) 0 = Some (Spec.before_first c s).
Proof.
  induction s as [| x t IH]; [reflexivity |].
  cbn. destruct (Ascii.eqb x c); [reflexivity |].
  destruct (split t c) as [| h r]; [discriminate IH |].
  cbn in *. now injection IH as ->.
Qed.

(** Item 1 of a split is what lies between the first two separators. *)
Lemma split_second (s : string) (c : ascii) :
  nth_error (split s c) 1 = Spec.between_first_and_second c s.
Proof.
  unfold Spec.between_first_and_second.
  induction s as [| x t IH]; [reflexivity |].
  cbn. destruct (Ascii.eqb x c).
  - cbn. apply split_head.
  - destruct (split t c) as [| h r]; [exact IH | exact IH].
Qed.

(** *** [endswith] and [replace] *)

Lemma endswith_app (p s : string) : endswith (p ++ s) s = true.
Proof.
  induction p as [| x p IH].
  - destruct s; cbn [append endswith]; now rewrite String.eqb_refl.
  - change (String x p ++ s)%string with (String x (p ++ s)).
    cbn [endswith]. rewrite IH. apply orb_true_r.
Qed.

(** No occurrence of [".conf"] begins inside [a] and runs into a
    [".conf"] that follows: the pattern has its only dot in front. *)
Lemma conf_no_straddle (a b : string) :
  a <> EmptyString ->
  String.prefix ".conf" a = false ->
  String.prefix ".conf" (a ++ ".conf" ++ b) = false.
Proof.
  intros Ha Hp.
  destruct a as [| x0 [| x1 [| x2 [| x3 [| x4 r]]]]]; [congruence | | | | |];
    cbn [append]; repeat rewrite prefix_cons in *; rewrite ?prefix_nil in *;
    cbn in *;
    repeat match goal with
           | |- context [Ascii.eqb ?u ?v] => destruct (Ascii.eqb u v)
           end; cbn in *; congruence.
Qed.

(** [replace] deletes the first [".conf"] and goes on behind it. *)
Lemma replace_conf_app (a b : string) :
  contains ".conf" a = false ->
  replace (a ++ ".conf" ++ b) ".conf" "" = (a ++ replace b ".conf" "")%string.
Proof.
  unfold replace. induction a as [| x a IH]; intros H.
  - pose proof (prefix_app ".conf" b) as E.
    cbn [append] in *. cbn [replace_scan]. rewrite E. reflexivity.
  - cbn [contains] in H. apply orb_false_elim in H as [Hp Hc].
    assert (E : String.prefix ".conf" (String x (a ++ ".conf" ++ b)) = false)
      by (apply (conf_no_straddle (String x a) b); [discriminate | exact Hp]).
    change (String x a ++ ".conf" ++ b)%string
      with (String x (a ++ ".conf" ++ b)).
    cbn [replace_scan]. rewrite E. cbn [append]. f_equal. apply IH, Hc.
Qed.

(** The stem of [a ++ ".conf"] is [a] when [a] holds no [".conf"]. *)
Lemma replace_conf_suffix (a : string) :
  contains ".conf" a = false -> replace (a ++ ".conf") ".conf" "" = a.
Proof.
  intros H. pose proof (replace_conf_app a "" H) as E.
  cbn [append] in E. rewrite E. unfold replace. cbn [replace_scan].
  clear. induction a as [| x a IH]; [reflexivity |].
  cbn. now rewrite IH.
Qed.

End PyFacts.

(** ** Facts about the dictionary *)

Module DictFacts.

Lemma get_set_same {V} (d : Dict.t V) (k : string) (v : V) :
  Dict.get (Dict.set d k v) k = Some v.
Proof.
  induction d as [| [k0 v0] r IH]; cbn.
  - now rewrite String.eqb_refl.
  - destruct (String.eqb k0 k) eqn:E; cbn; now rewrite E.
Qed.

Lemma get_set_other {V} (d : Dict.t V) (k k' : string) (v : V) :
  k <> k' -> Dict.get (Dict.set d k v) k' = Dict.get d k'.
Proof.
  intros Hk. induction d as [| [k0 v0] r IH]; cbn.
  - apply String.eqb_neq in Hk. now rewrite Hk.
  - destruct (String.eqb k0 k) eqn:E; cbn.
    + apply String.eqb_eq in E. subst k0.
      apply String.eqb_neq in Hk. now rewrite Hk.
    + destruct (String.eqb k0 k'); [reflexivity | exact IH].
Qed.

End DictFacts.

(** ** What each function does to the world *)

Section Runs.

Context {host : Host}.

Lemma get_available_regions_run (w : World) :
  get_available_regions w =
    (Ok (catalogue w),
     {| fs := fs w; unit_state := unit_state w;
        log := log w ++ EvExists REGIONS_DIR ::
                 match profiles w with
                 | Some _ => [EvListdir REGIONS_DIR]
                 | None => []
                 end |}).
Proof.
  unfold get_available_regions, catalogue, profiles, bind,
    exists_regions_dir, listdir_regions_dir, ret, emit.
  destruct w as [[[pc [names |]] |] u l]; cbn;
    rewrite <- ?app_assoc; reflexivity.
Qed.

Lemma get_current_region_run (w : World) :
  get_current_region w =
    (current_of (active_config w),
     {| fs := fs w; unit_state := unit_state w;
        log := log w ++ EvExists PROTON_CONFIG ::
                 match active_config w with
                 | Some _ => [EvRead PROTON_CONFIG]
                 | None => []
                 end |}).
Proof.
  unfold get_current_region, current_of, active_config, bind, lift,
    exists_proton_config, read_proton_config, ret, emit.
  destruct w as [[[[[| data] |] rd] |] u l]; cbn;
    rewrite <- ?app_assoc; try reflexivity;
    destruct (scan_lines _); reflexivity.
Qed.

Lemma get_service_status_run (w : World) :
  get_service_status w =
    (Ok (reports_running (unit_state w)),
     emit (EvRun ["systemctl"; "is-active"; SERVICE_NAME]) w).
Proof. reflexivity. Qed.


Lemma update_config_run (w : World) (d : config_dir) (path socks : string) :
  fs w = Some d ->
  CONFIG_DIR <> "" ->
  may_write d = true ->
  update_config path socks w =
    (Ok tt,
     {| fs := Some {| proton_conf := Some (Text (config_text path socks));
                      regions_dir := regions_dir d;
                      conf_writable := true |};
        unit_state := unit_state w;
        log := log w ++ [EvMakedirs CONFIG_DIR;
                         EvWrite PROTON_CONFIG (config_text path socks);
                         EvChmod PROTON_CONFIG 384] |}).
Proof.
  intros Hfs Hdir Hmay. apply String.eqb_neq in Hdir.
  unfold update_config, bind, makedirs_config_dir, write_proton_config,
    chmod_proton_config, emit.
  destruct w as [f u l]. cbn in *. subst f. rewrite Hdir. cbn.
  rewrite Hmay. cbn. rewrite <- !app_assoc. reflexivity.
Qed.

Lemma run_systemctl_run (action : string) (w : World) :
  run_systemctl action w =
    (Ok match fst (systemctl action (unit_state w)) with
        | None => (true, None)
        | Some e => (false, Some e)
        end,
     {| fs := fs w; unit_state := snd (systemctl action (unit_state w));
        log := log w ++ [EvRun ["systemctl"; action; SERVICE_NAME]] |}).
Proof.
  unfold run_systemctl. destruct (systemctl action (unit_state w)); reflexivity.
Qed.

End Runs.

(** ** The switch operation, case by case *)

Section Switch.

Context {host : Host}.

Lemma catalogue_entry_has_dir (w : World) (code : string) (entry : region_entry) :
  Dict.get (catalogue w) code = Some entry ->
  exists d names, fs w = Some d /\ regions_dir d = Some names.
Proof.
  unfold catalogue, profiles. destruct (fs w) as [d |]; [| discriminate].
  destruct (regions_dir d) as [names |] eqn:E; [| discriminate].
  intros _. now exists d, names.
Qed.

Lemma switch_region_known
      (w : World) (request_json : option (Dict.t string))
      (code : string) (entry : region_entry) :
  CONFIG_DIR <> "" ->
  can_write w = true ->
  Dict.get (request_data request_json) "region" = Some code ->
  code <> "" ->
  Dict.get (catalogue w) code = Some entry ->
  let written :=
    Some {| proton_conf :=
              Some (Text (config_text (file entry) DEFAULT_SOCKS_BIND));
            regions_dir := profiles w;
            conf_writable := true |} in
  let calls :=
    log w ++ [EvExists REGIONS_DIR; EvListdir REGIONS_DIR]
          ++ switch_calls (file entry) in
  switch_region request_json w =
    if reports_running (unit_state w) then
      (Ok match fst (systemctl "restart" (unit_state w)) with
          | None => switched code true
          | Some error => restart_failed error
          end,
       {| fs := written;
          unit_state := snd (systemctl "restart" (unit_state w));
          log := calls ++ [EvRun ["systemctl"; "restart"; SERVICE_NAME]] |})
    else
      (Ok (switched code false),
       {| fs := written; unit_state := unit_state w; log := calls |}).
Proof.
  intros Hdir Hwrite Hreq Hcode Hget.
  destruct (catalogue_entry_has_dir w code entry Hget) as (d & names & Hfs & Hrd).
  assert (Hprof : profiles w = Some names)
    by (unfold profiles; now rewrite Hfs).
  assert (Hmay : may_write d = true)
    by (unfold can_write in Hwrite; now rewrite Hfs in Hwrite).
  unfold switch_region. rewrite Hreq. cbn [falsy].
  apply String.eqb_neq in Hcode. rewrite Hcode.
  unfold bind at 1. rewrite get_available_regions_run.
  unfold Dict.mem. rewrite Hget. cbn [negb].
  unfold bind at 1. unfold lift at 1.
  unfold bind at 1.
  erewrite update_config_run by (cbn; eassumption).
  unfold bind at 1. rewrite get_service_status_run. cbn [unit_state emit fs log].
  rewrite Hprof, Hrd.
  unfold switch_calls.
  destruct (reports_running (unit_state w)).
  - unfold bind, ret. rewrite run_systemctl_run.
    cbn [fst snd unit_state fs log emit].
    destruct (systemctl "restart" (unit_state w)) as [[error |] u];
      cbn [fst snd negb]; repeat rewrite <- app_assoc; cbn [app];
      reflexivity.
  - unfold ret, emit. cbn [fs unit_state log].
    repeat rewrite <- app_assoc. cbn [app]. reflexivity.
Qed.

End Switch.

(** ** Properties of the region controller *)

Section Controller.

Context {host : Host}.

(** C5. A request whose [region] field is missing or empty is answered
    with "Region required" and status 400, and the world after the call is
    the world before it: the files, the unit and the log of system calls
    are the same, so nothing was read, written or run. *)
Theorem switch_region_empty_request_touches_nothing
        (w : World) (request_json : option (Dict.t string)) :
  falsy (Dict.get (request_data request_json) "region") = true ->
  switch_region request_json w = (Ok region_required, w).
Proof.
  unfold switch_region, falsy, region_required, ret.
  destruct (Dict.get (request_data request_json) "region") as [code |];
    [intros -> |]; reflexivity.
Qed.

(** C4. A request for a non-empty code that is not a key of the catalogue
    is answered with "Unknown region", status 400 and the keys of the
    catalogue as it was listed, in its order; proton.conf, the regions
    directory and the unit are as before, and the only system calls made
    are look-ups in the file system. *)
Theorem switch_region_unknown_leaves_config
        (w : World) (request_json : option (Dict.t string))
        (code : string) (available : Dict.t region_entry) :
  Dict.get (request_data request_json) "region" = Some code ->
  code <> "" ->
  fst (get_available_regions w) = Ok available ->
  Dict.mem code available = false ->
  exists w' calls,
    switch_region request_json w
    = (Ok (unknown_region code (Dict.keys available)), w')
    /\ fs w' = fs w
    /\ unit_state w' = unit_state w
    /\ log w' = log w ++ calls
    /\ forallb read_only calls = true.
Proof.
  intros Hreq Hcode Hav Hmem.
  rewrite get_available_regions_run in Hav. cbn [fst] in Hav.
  injection Hav as <-.
  apply String.eqb_neq in Hcode.
  eexists. eexists. split.
  - unfold switch_region. rewrite Hreq. cbn [falsy]. rewrite Hcode.
    unfold bind. rewrite get_available_regions_run, Hmem. reflexivity.
  - cbn [fs unit_state log]. repeat split.
    now destruct (profiles w).
Qed.

(** C7. [start] answers "No configuration found", status 400, exactly when
    proton.conf does not exist, and then runs nothing. When the file
    exists it runs [systemctl start] once: the answer is status 500 with
    the diagnostic text when that fails, and [running: true] with status
    200 when it succeeds. *)
Theorem start_requires_config (w : World) :
  ((exists w', start w = (Ok not_configured, w')) <-> active_config w = None)
  /\ (active_config w = None ->
      start w = (Ok not_configured, emit (EvExists PROTON_CONFIG) w))
  /\ (active_config w <> None ->
      start w =
        (Ok match fst (systemctl "start" (unit_state w)) with
            | None => started
            | Some error => manager_failed error
            end,
         {| fs := fs w;
            unit_state := snd (systemctl "start" (unit_state w));
            log := log w ++ [EvExists PROTON_CONFIG;
                             EvRun ["systemctl"; "start"; SERVICE_NAME]] |})).
Proof.
  assert (Habsent : active_config w = None ->
                    start w = (Ok not_configured, emit (EvExists PROTON_CONFIG) w)).
  { unfold start, bind, exists_proton_config, active_config.
    destruct (fs w) as [d |]; [intros -> |]; reflexivity. }
  assert (Hpresent : active_config w <> None ->
                     start w =
                       (Ok match fst (systemctl "start" (unit_state w)) with
                           | None => started
                           | Some error => manager_failed error
                           end,
                        {| fs := fs w;
                           unit_state := snd (systemctl "start" (unit_state w));
                           log := log w ++ [EvExists PROTON_CONFIG;
                                            EvRun ["systemctl"; "start"; SERVICE_NAME]] |})).
  { intros H.
    assert (E : match fs w with
                | Some d => is_some (proton_conf d)
                | None => false
                end = true).
    { unfold active_config in H. destruct (fs w) as [d |]; [| congruence].
      destruct (proton_conf d); [reflexivity | congruence]. }
    unfold start, bind, exists_proton_config. rewrite E.
    cbn [negb]. rewrite run_systemctl_run.
    cbn [emit fs unit_state log].
    destruct (systemctl "start" (unit_state w)) as [[error |] u'];
      cbn [fst snd]; unfold ret; rewrite <- app_assoc; reflexivity. }
  split; [| split; assumption].
  split; [| intros H; eexists; apply (Habsent H)].
  intros [w' Hstart].
  destruct (active_config w) as [f |] eqn:E; [| reflexivity].
  rewrite Hpresent in Hstart by congruence.
  destruct (fst (systemctl "start" (unit_state w))); discriminate Hstart.
Qed.

(** C8. [stop] runs [systemctl stop] whatever the unit's state: every call
    of it adds exactly that one command to the log. When the first stop
    succeeds and leaves the unit reported as not running, and the service
    manager's stop of a unit that is not running succeeds, two calls in a
    row both answer [running: false] with status 200. *)
Theorem stop_twice_succeeds (w : World) (u1 : manager) :
  systemctl "stop" (unit_state w) = (None, u1) ->
  reports_running u1 = false ->
  (forall u, reports_running u = false -> fst (systemctl "stop" u) = None) ->
  (forall w0,
      log (snd (stop w0))
      = log w0 ++ [EvRun ["systemctl"; "stop"; SERVICE_NAME]])
  /\ exists w1 w2,
       stop w = (Ok stopped, w1)
       /\ stop w1 = (Ok stopped, w2)
       /\ unit_state w1 = u1
       /\ fs w2 = fs w.
Proof.
  intros Hfirst Hdown Hidem.
  assert (Hrun : forall w0,
             stop w0 =
               (Ok match fst (systemctl "stop" (unit_state w0)) with
                   | None => stopped
                   | Some error => manager_failed error
                   end,
                {| fs := fs w0;
                   unit_state := snd (systemctl "stop" (unit_state w0));
                   log := log w0 ++ [EvRun ["systemctl"; "stop"; SERVICE_NAME]] |})).
  { intros w0. unfold stop, bind. rewrite run_systemctl_run.
    destruct (systemctl "stop" (unit_state w0)) as [[error |] u']; reflexivity. }
  split.
  - intros w0. now rewrite Hrun.
  - eexists. eexists. split; [| split; [| split]].
    + rewrite Hrun, Hfirst. reflexivity.
    + rewrite Hrun. cbn [unit_state fst snd]. rewrite (Hidem u1 Hdown).
      reflexivity.
    + reflexivity.
    + reflexivity.
Qed.

End Controller.

(** ** Properties of the region catalogue *)

Section Catalogue.

Context {host : Host}.

Import Py PyFacts.

(** The code of a stem is the suffix after its last [-], in both branches. *)
Lemma code_of_stem_after_last (stem : string) :
  code_of_stem stem = Spec.after_last "-" stem.
Proof.
  unfold code_of_stem. rewrite contains_char.
  destruct (Spec.occurs "-" stem) eqn:E.
  - apply last_item_split.
  - symmetry. now apply after_last_absent.
Qed.

Lemma region_code_separated (X Y : string) :
  contains "-" Y = false ->
  contains ".conf" (X ++ "-" ++ Y) = false ->
  region_code (X ++ "-" ++ Y ++ ".conf") = Y.
Proof.
  intros HY Hconf. unfold region_code.
  replace (X ++ "-" ++ Y ++ ".conf")%string
    with ((X ++ "-" ++ Y) ++ ".conf")%string
    by (rewrite !append_assoc; reflexivity).
  rewrite (replace_conf_suffix _ Hconf), code_of_stem_after_last.
  rewrite <- last_item_split.
  change (X ++ "-" ++ Y)%string with (X ++ String "-" Y)%string.
  rewrite split_app, last_item_app by apply split_not_nil.
  rewrite contains_char in HY. now rewrite (split_absent Y "-" HY).
Qed.

Lemma region_code_plain (Y : string) :
  contains "-" Y = false ->
  contains ".conf" Y = false ->
  region_code (Y ++ ".conf") = Y.
Proof.
  intros HY Hconf. unfold region_code.
  rewrite (replace_conf_suffix _ Hconf), code_of_stem_after_last.
  rewrite contains_char in HY. now apply after_last_absent.
Qed.

Lemma scan_entry_profile (regions : Dict.t region_entry) (f : string) :
  endswith f ".conf" = true ->
  scan_entry regions f =
    Dict.set regions (region_code f)
      {| file := os_path_join REGIONS_DIR f;
         name := str_upper (region_code f) |}.
Proof. intros H. unfold scan_entry. now rewrite H. Qed.

Lemma scan_entry_other (regions : Dict.t region_entry) (f c : string) :
  (endswith f ".conf" = true -> region_code f <> c) ->
  Dict.get (scan_entry regions f) c = Dict.get regions c.
Proof.
  intros H. destruct (endswith f ".conf") eqn:E.
  - rewrite scan_entry_profile by exact E.
    apply DictFacts.get_set_other. now apply H.
  - unfold scan_entry. now rewrite E.
Qed.

Lemma scan_entry_keeps_key (regions : Dict.t region_entry) (f c : string) :
  Dict.mem c regions = true -> Dict.mem c (scan_entry regions f) = true.
Proof.
  intros H. destruct (endswith f ".conf") eqn:E.
  - rewrite scan_entry_profile by exact E. unfold Dict.mem.
    destruct (string_dec (region_code f) c) as [<- | n].
    + now rewrite DictFacts.get_set_same.
    + now rewrite DictFacts.get_set_other.
  - unfold scan_entry. now rewrite E.
Qed.

(** Later names that derive another code leave the entry of [c] alone. *)
Lemma fold_scan_other (post : list string) (regions : Dict.t region_entry)
      (c : string) :
  (forall g, In g post -> endswith g ".conf" = true -> region_code g <> c) ->
  Dict.get (fold_left scan_entry post regions) c = Dict.get regions c.
Proof.
  revert regions. induction post as [| g post IH]; intros regions H.
  - reflexivity.
  - cbn [fold_left]. rewrite IH.
    + apply scan_entry_other. apply H. now left.
    + intros g' Hin. apply H. now right.
Qed.

Lemma fold_scan_keeps_key (post : list string) (regions : Dict.t region_entry)
      (c : string) :
  Dict.mem c regions = true ->
  Dict.mem c (fold_left scan_entry post regions) = true.
Proof.
  revert regions. induction post as [| g post IH]; intros regions H.
  - exact H.
  - cbn [fold_left]. apply IH. now apply scan_entry_keeps_key.
Qed.

(** A [.conf] name of the listing puts its code among the keys; the code
    maps to the path of that name unless a later name derives it too. *)
Lemma catalogue_of_profile (w : World) (pre post : list string) (f : string) :
  profiles w = Some (pre ++ f :: post) ->
  endswith f ".conf" = true ->
  Dict.mem (region_code f) (catalogue w) = true
  /\ ((forall g, In g post -> endswith g ".conf" = true ->
                 region_code g <> region_code f) ->
      Dict.get (catalogue w) (region_code f)
      = Some {| file := os_path_join REGIONS_DIR f;
                name := str_upper (region_code f) |}).
Proof.
  intros Hprof Hconf. unfold catalogue. rewrite Hprof.
  rewrite fold_left_app. cbn [fold_left].
  rewrite scan_entry_profile by exact Hconf.
  split.
  - apply fold_scan_keeps_key. unfold Dict.mem.
    now rewrite DictFacts.get_set_same.
  - intros Hlater. rewrite fold_scan_other by exact Hlater.
    apply DictFacts.get_set_same.
Qed.

Lemma substring_prefix (a b : string) :
  String.substring 0 (String.length a) (a ++ b) = a.
Proof.
  induction a as [| x a IH]; cbn.
  - now destruct b.
  - now rewrite IH.
Qed.

Lemma length_app (a b : string) :
  String.length (a ++ b) = String.length a + String.length b.
Proof.
  induction a as [| x a IH]; cbn; [reflexivity | now rewrite IH].
Qed.

Lemma without_extension_conf (a : string) :
  Spec.without_extension (a ++ ".conf") ".conf" = a.
Proof.
  unfold Spec.without_extension. rewrite endswith_app, length_app.
  cbn [String.length]. rewrite Nat.add_sub. apply substring_prefix.
Qed.

(** On a path whose file name has one [.conf], at its end, the code the
    functions derive is the code of the data model: the name without its
    extension, cut after its last [-]. *)
Lemma region_code_follows_rule (path a : string) :
  Spec.after_last "/" path = (a ++ ".conf")%string ->
  contains ".conf" a = false ->
  region_code (os_path_basename path) = Spec.code_of_path path.
Proof.
  intros Hname Hconf. unfold os_path_basename, Spec.code_of_path, region_code.
  rewrite last_item_split, Hname, without_extension_conf.
  rewrite (replace_conf_suffix a Hconf). apply code_of_stem_after_last.
Qed.

End Catalogue.

Section CatalogueClaims.

Context {host : Host}.

Import Py PyFacts.

Lemma endswith_conf (a : string) : endswith (a ++ ".conf") ".conf" = true.
Proof. apply endswith_app. Qed.

Lemma listed_profile (w : World) (pre post : list string) (f code : string) :
  profiles w = Some (pre ++ f :: post) ->
  endswith f ".conf" = true ->
  region_code f = code ->
  exists available,
    fst (get_available_regions w) = Ok available
    /\ Dict.mem code available = true
    /\ ((forall g, In g post -> endswith g ".conf" = true ->
                   region_code g <> code) ->
        option_map file (Dict.get available code)
        = Some (os_path_join REGIONS_DIR f)).
Proof.
  intros Hprof Hconf <-.
  destruct (catalogue_of_profile w pre post f Hprof Hconf) as [Hmem Hget].
  exists (catalogue w). rewrite get_available_regions_run.
  split; [reflexivity | split; [exact Hmem |]].
  intros Hlater. now rewrite (Hget Hlater).
Qed.

(** C6, as amended. For a name [X-Y.conf] of the listing, with no [-] in
    [Y] and no [.conf] inside [X-Y], the catalogue has the key [Y], and
    maps it to the path of that file when no later name of the listing
    derives the code [Y] as well. The same holds for a name [Y.conf] with
    neither [-] nor [.conf] in [Y], whose derived code is [Y]. When the
    regions directory does not exist the catalogue is empty and nothing
    is raised. *)
Theorem list_regions_maps_code_to_last_profile (w : World) :
  (forall pre post X Y,
      profiles w = Some (pre ++ (X ++ "-" ++ Y ++ ".conf")%string :: post) ->
      contains "-" Y = false ->
      contains ".conf" (X ++ "-" ++ Y) = false ->
      exists available,
        fst (get_available_regions w) = Ok available
        /\ Dict.mem Y available = true
        /\ ((forall g, In g post -> endswith g ".conf" = true ->
                       region_code g <> Y) ->
            option_map file (Dict.get available Y)
            = Some (os_path_join REGIONS_DIR (X ++ "-" ++ Y ++ ".conf"))))
  /\ (forall pre post Y,
         profiles w = Some (pre ++ (Y ++ ".conf")%string :: post) ->
         contains "-" Y = false ->
         contains ".conf" Y = false ->
         region_code (Y ++ ".conf") = Y
         /\ exists available,
             fst (get_available_regions w) = Ok available
             /\ Dict.mem Y available = true
             /\ ((forall g, In g post -> endswith g ".conf" = true ->
                            region_code g <> Y) ->
                 option_map file (Dict.get available Y)
                 = Some (os_path_join REGIONS_DIR (Y ++ ".conf"))))
  /\ (profiles w = None -> fst (get_available_regions w) = Ok Dict.empty).
Proof.
  split; [| split].
  - intros pre post X Y Hprof HY Hconf.
    apply (listed_profile w pre post _ Y Hprof).
    + replace (X ++ "-" ++ Y ++ ".conf")%string
        with ((X ++ "-" ++ Y) ++ ".conf")%string
        by (rewrite !append_assoc; reflexivity).
      apply endswith_conf.
    + now apply region_code_separated.
  - intros pre post Y Hprof HY Hconf.
    pose proof (region_code_plain Y HY Hconf) as Hcode.
    split; [exact Hcode |].
    apply (listed_profile w pre post _ Y Hprof);
      [apply endswith_conf | exact Hcode].
  - intros Hnone. rewrite get_available_regions_run.
    unfold catalogue. now rewrite Hnone.
Qed.

(** C10. [replace] deletes the first [.conf] of a name and goes on behind
    it, so every occurrence goes, not only the extension. Both functions
    derive the code from the name so shortened: for [a-b.confc.conf] the
    catalogue has the key [bc], and a proton.conf that points at that file
    gives the current region [bc]; removing only the trailing extension
    would give [b.confc]. *)
Theorem conf_is_deleted_everywhere (w : World) :
  (forall a b,
      contains ".conf" a = false ->
      replace (a ++ ".conf" ++ b) ".conf" ""
      = (a ++ replace b ".conf" "")%string)
  /\ (forall regions f,
         endswith f ".conf" = true ->
         scan_entry regions f
         = Dict.set regions (code_of_stem (replace f ".conf" ""))
             {| file := os_path_join REGIONS_DIR f;
                name := str_upper (code_of_stem (replace f ".conf" "")) |})
  /\ (forall line field rest,
         startswith line "WGConfig" = true ->
         nth_error (split line "=") 1 = Some field ->
         scan_lines (line :: rest)
         = Ok (Some (code_of_stem
                       (replace (os_path_basename (strip field)) ".conf" ""))))
  /\ (profiles w = Some ["a-b.confc.conf"] ->
      fst (get_available_regions w)
      = Ok [("bc", {| file := os_path_join REGIONS_DIR "a-b.confc.conf";
                      name := str_upper "bc" |})])
  /\ (active_config w
      = Some (Text "WGConfig = /etc/wireproxy/regions/a-b.confc.conf") ->
      fst (get_current_region w) = Ok (Some "bc"))
  /\ Spec.after_last "-" (Spec.without_extension "a-b.confc.conf" ".conf")
     = "b.confc".
Proof.
  split; [exact replace_conf_app |].
  split; [intros regions f; apply scan_entry_profile |].
  split.
  { intros line field rest Hline Hfield. cbn [scan_lines].
    rewrite Hline, Hfield. unfold code_of_stem.
    now destruct (contains "-" _). }
  split.
  { intros Hprof. rewrite get_available_regions_run.
    unfold catalogue. rewrite Hprof. reflexivity. }
  split.
  { intros Hconf. rewrite get_current_region_run, Hconf. reflexivity. }
  reflexivity.
Qed.

End CatalogueClaims.

(** ** Properties of the current-region query *)

Section CurrentRegion.

Context {host : Host}.

Import Py PyFacts.

Lemma before_first_app (c : ascii) (p q : string) :
  Spec.occurs c p = false ->
  Spec.before_first c (p ++ String c q) = p.
Proof.
  induction p as [| x p IH]; cbn.
  - intros _. now rewrite Ascii.eqb_refl.
  - intros H. apply orb_false_elim in H as [Hx Hp].
    now rewrite Hx, (IH Hp).
Qed.

(** The loop over the lines, read as a rule: the first line with the
    prefix decides, and its second [=]-separated field is the path. *)
Lemma scan_lines_rule (lines : list string) :
  scan_lines lines =
    match Spec.first_line_with_prefix "WGConfig" lines with
    | None => Ok None
    | Some line =>
        match Spec.between_first_and_second "=" line with
        | None => Raise IndexError
        | Some field =>
            Ok (Some (region_code (os_path_basename (strip field))))
        end
    end.
Proof.
  induction lines as [| line rest IH]; [reflexivity |].
  cbn [scan_lines Spec.first_line_with_prefix find].
  unfold startswith.
  destruct (String.prefix "WGConfig" line); [| exact IH].
  rewrite split_second.
  destruct (Spec.between_first_and_second "=" line) as [field |];
    [| reflexivity].
  unfold region_code, code_of_stem. now destruct (contains "-" _).
Qed.

Lemma status_run (w : World) :
  fst (status w) =
    match current_of (active_config w) with
    | Ok region =>
        Ok (JObj [("running", JBool (reports_running (unit_state w)));
                  ("region", json_of_option region);
                  ("config_file", JStr PROTON_CONFIG)], 200)
    | Raise e => Raise e
    end.
Proof.
  unfold status, bind. rewrite get_service_status_run, get_current_region_run.
  cbn [emit fs unit_state log].
  change (active_config (emit _ w)) with (active_config w).
  destruct (current_of (active_config w)); reflexivity.
Qed.

(** C9. Whatever text proton.conf holds, the current region is decided by
    the first line that starts with [WGConfig] (any line with that prefix,
    so also [WGConfigBackup = x]): no such line gives none; otherwise the
    path is the text between the first and the second [=] of that line,
    stripped, and the code is derived from its file name (the query raises
    IndexError when that line has no [=]). So for a path [p=q] the code
    comes from [p] alone. *)
Theorem current_region_reads_first_prefixed_line (w : World) (data : string) :
  active_config w = Some (Text data) ->
  fst (get_current_region w) =
    match Spec.first_line_with_prefix "WGConfig"
            (split (universal_newlines data) "010") with
    | None => Ok None
    | Some line =>
        match Spec.between_first_and_second "=" line with
        | None => Raise IndexError
        | Some field =>
            Ok (Some (region_code (os_path_basename (strip field))))
        end
    end
  /\ (forall p q,
         contains "=" p = false ->
         Spec.between_first_and_second "=" ("WGConfig = " ++ p ++ "=" ++ q)
         = Some (" " ++ p)%string).
Proof.
  intros Hconf. split.
  - rewrite get_current_region_run, Hconf. cbn [fst current_of].
    apply scan_lines_rule.
  - intros p q Hp. rewrite contains_char in Hp.
    unfold Spec.between_first_and_second. cbn.
    now rewrite (before_first_app "=" p q Hp).
Qed.

(** C3, at the input where it fails. With a proton.conf whose only line is
    [WGConfig], without [=], [get_current_region] raises IndexError, and so
    does [status]; with a proton.conf that exists and cannot be read both
    raise as well. Neither returns none. *)
Theorem status_raises_on_line_without_equals (w : World) :
  (active_config w = Some (Text "WGConfig") ->
   fst (get_current_region w) = Raise IndexError
   /\ fst (status w) = Raise IndexError)
  /\ (active_config w = Some Unreadable ->
      fst (get_current_region w) = Raise ReadError
      /\ fst (status w) = Raise ReadError).
Proof.
  split; intros Hconf; rewrite status_run, get_current_region_run, Hconf;
    split; reflexivity.
Qed.

(** Where the queries do return: no file gives none, and so does a file
    none of whose lines starts with [WGConfig]. *)
Lemma current_region_none (w : World) :
  (active_config w = None -> fst (get_current_region w) = Ok None)
  /\ (forall data,
         active_config w = Some (Text data) ->
         Spec.first_line_with_prefix "WGConfig"
           (split (universal_newlines data) "010") = None ->
         fst (get_current_region w) = Ok None).
Proof.
  split.
  - intros Hconf. now rewrite get_current_region_run, Hconf.
  - intros data Hconf Hnone. rewrite get_current_region_run, Hconf.
    cbn [fst current_of]. now rewrite scan_lines_rule, Hnone.
Qed.

End CurrentRegion.

(** ** Where the round trip of switch and query holds *)

Section RoundTrip.

Context {host : Host}.

Import Py PyFacts.

Lemma universal_newlines_without_cr (s : string) :
  Spec.occurs "013" s = false -> universal_newlines s = s.
Proof.
  induction s as [| x t IH]; [reflexivity |].
  cbn. intros H. apply orb_false_elim in H as [Hx Ht].
  now rewrite Hx, (IH Ht).
Qed.

Lemma lstrip_keeps_tail (a t : string) (c : ascii) :
  isspace c = false ->
  exists a', lstrip (a ++ String c t) = (a' ++ String c t)%string.
Proof.
  intros Hc. induction a as [| x a IH].
  - exists EmptyString. cbn. now rewrite Hc.
  - cbn. destruct (isspace x).
    + exact IH.
    + now exists (String x a).
Qed.

Lemma rstrip_ends_nonspace (t : string) (c : ascii) :
  isspace c = false ->
  rstrip (t ++ String c "") = (t ++ String c "")%string.
Proof.
  intros Hc. induction t as [| x t IH].
  - cbn. now rewrite Hc.
  - cbn [append rstrip]. rewrite IH.
    destruct t; reflexivity.
Qed.

Lemma rstrip_conf (s : string) : rstrip (s ++ ".conf") = (s ++ ".conf")%string.
Proof.
  replace (s ++ ".conf")%string with ((s ++ ".con") ++ String "f" "")%string
    by (rewrite append_assoc; reflexivity).
  now apply rstrip_ends_nonspace.
Qed.

Lemma endswith_inv (s p : string) :
  endswith s p = true -> exists q, s = (q ++ p)%string.
Proof.
  induction s as [| x t IH]; cbn [endswith]; intros H.
  - rewrite orb_false_r in H. apply String.eqb_eq in H. now exists EmptyString.
  - apply orb_true_iff in H as [H | H].
    + apply String.eqb_eq in H. now exists EmptyString.
    + destruct (IH H) as [q ->]. now exists (String x q).
Qed.

(** The base name of a stripped path [a/f] is [f], for a name [f] that
    ends in [.conf] and holds no slash. *)
Lemma basename_of_stripped_path (a f : string) :
  endswith f ".conf" = true ->
  Spec.occurs "/" f = false ->
  os_path_basename (strip (" " ++ a ++ "/" ++ f)) = f.
Proof.
  intros Hconf Hslash.
  destruct (endswith_inv f ".conf" Hconf) as [f0 Ef].
  unfold strip. cbn [append lstrip].
  change (isspace " ") with true. cbn iota.
  destruct (lstrip_keeps_tail a f "/" eq_refl) as [a' ->].
  assert (E : (a' ++ String "/" f)%string = ((a' ++ String "/" f0) ++ ".conf")%string)
    by (rewrite Ef, append_assoc; reflexivity).
  rewrite E, rstrip_conf, <- E.
  unfold os_path_basename.
  rewrite split_app, last_item_app by apply split_not_nil.
  now rewrite (split_absent f "/" Hslash).
Qed.

Lemma endswith_regions (r : string) : endswith (r ++ "regions") "/" = false.
Proof.
  induction r as [| x r IH]; [reflexivity |].
  cbn [append endswith]. rewrite IH, orb_false_r.
  cbn. destruct r; apply andb_false_r.
Qed.

Lemma regions_dir_join (f : string) :
  Spec.occurs "/" f = false ->
  os_path_join REGIONS_DIR f = (REGIONS_DIR ++ "/" ++ f)%string.
Proof.
  intros Hslash.
  assert (Hr : exists r, REGIONS_DIR = (r ++ "regions")%string).
  { unfold REGIONS_DIR, os_path_join.
    change (startswith "regions" "/") with false. cbn iota.
    destruct (_ || _).
    - now exists CONFIG_DIR.
    - exists (CONFIG_DIR ++ "/")%string. now rewrite append_assoc. }
  destruct Hr as [r Hr].
  unfold os_path_join, startswith.
  assert (Hf : String.prefix "/" f = false).
  { destruct f as [| x t]; [reflexivity |].
    cbn in Hslash. apply orb_false_elim in Hslash as [Hx _].
    rewrite prefix_cons, Ascii.eqb_sym, Hx. reflexivity. }
  rewrite Hf, Hr, endswith_regions.
  destruct r; reflexivity.
Qed.

(** An entry of the catalogue comes from a [.conf] name of the listing. *)
Lemma fold_scan_inv (names : list string) (regions : Dict.t region_entry)
      (c : string) (e : region_entry) :
  Dict.get (fold_left scan_entry names regions) c = Some e ->
  Dict.get regions c = Some e
  \/ exists f, In f names /\ endswith f ".conf" = true /\ region_code f = c
               /\ file e = os_path_join REGIONS_DIR f.
Proof.
  revert regions. induction names as [| g names IH]; intros regions H.
  - now left.
  - cbn [fold_left] in H. destruct (IH _ H) as [Hg | (f & Hin & Hf)].
    + destruct (endswith g ".conf") eqn:E.
      * rewrite scan_entry_profile in Hg by exact E.
        destruct (string_dec (region_code g) c) as [Hc | Hc].
        -- subst c. rewrite DictFacts.get_set_same in Hg.
           injection Hg as <-. right. exists g.
           repeat split; [now left | exact E].
        -- rewrite DictFacts.get_set_other in Hg by exact Hc. now left.
      * unfold scan_entry in Hg. rewrite E in Hg. now left.
    + right. exists f. split; [now right | exact Hf].
Qed.

(** The region read back from the text [update_config] writes. *)
Lemma current_of_written (f : string) :
  endswith f ".conf" = true ->
  Spec.occurs "/" f = false ->
  Spec.occurs "=" (os_path_join REGIONS_DIR f) = false ->
  Spec.occurs "010" (os_path_join REGIONS_DIR f) = false ->
  Spec.occurs "013" (os_path_join REGIONS_DIR f) = false ->
  current_of (Some (Text (config_text (os_path_join REGIONS_DIR f)
                            DEFAULT_SOCKS_BIND)))
  = Ok (Some (region_code f)).
Proof.
  intros Hconf Hslash Heq Hlf Hcr.
  set (path := os_path_join REGIONS_DIR f) in *.
  set (tail := (nl ++ "[Socks5]" ++ nl ++
                "BindAddress = " ++ DEFAULT_SOCKS_BIND ++ nl)%string).
  assert (Etext : config_text path DEFAULT_SOCKS_BIND
                  = (("# Proton VPN Configuration" ++ nl ++
                      "# Managed by proton-ctl API" ++ nl)
                     ++ String "010"
                          (("WGConfig = " ++ path) ++ String "010" tail))%string).
  { unfold config_text, tail, nl. rewrite !append_assoc. reflexivity. }
  unfold current_of.
  rewrite universal_newlines_without_cr.
  2:{ rewrite Etext. rewrite !occurs_app. cbn [Spec.occurs].
      rewrite !occurs_app, Hcr. reflexivity. }
  rewrite Etext, split_app, split_app.
  rewrite (split_absent ("WGConfig = " ++ path) "010")
    by (cbn; exact Hlf).
  cbn [split nl append Ascii.eqb Bool.eqb app scan_lines].
  unfold startswith.
  change (String.prefix "WGConfig" "# Proton VPN Configuration") with false.
  change (String.prefix "WGConfig" "# Managed by proton-ctl API") with false.
  change (String.prefix "WGConfig" "") with false.
  cbn iota.
  assert (Hp : String.prefix "WGConfig" ("WGConfig = " ++ path) = true)
    by (apply (prefix_app "WGConfig" (" = " ++ path))).
  cbn [append] in Hp. rewrite Hp.
  rewrite (split_absent path "=" Heq). cbn [nth_error].
  unfold path. rewrite (regions_dir_join f Hslash).
  change (String " " (REGIONS_DIR ++ "/" ++ f))
    with (" " ++ REGIONS_DIR ++ "/" ++ f)%string.
  rewrite (basename_of_stripped_path REGIONS_DIR f Hconf Hslash).
  unfold region_code, code_of_stem. now destruct (contains "-" _).
Qed.

End RoundTrip.

(** ** More about the dictionary: its keys *)

Module DictKeys.

Lemma keys_get {V} (d : Dict.t V) (k : string) :
  In k (Dict.keys d) -> exists v, Dict.get d k = Some v.
Proof.
  induction d as [| [k0 v0] r IH]; cbn; [contradiction |].
  intros [-> | Hin].
  - rewrite String.eqb_refl. now exists v0.
  - destruct (String.eqb k0 k); [now exists v0 | now apply IH].
Qed.

Lemma get_keys {V} (d : Dict.t V) (k : string) (v : V) :
  Dict.get d k = Some v -> In k (Dict.keys d).
Proof.
  induction d as [| [k0 v0] r IH]; cbn; [discriminate |].
  destruct (String.eqb k0 k) eqn:E.
  - apply String.eqb_eq in E. now left.
  - intros H. right. now apply IH.
Qed.

End DictKeys.

(** ** More about the catalogue *)

Section CatalogueKeys.

Context {host : Host}.

Import Py PyFacts.

(** What a function returned, from the first component of its run. *)
Ltac listed H :=
  rewrite get_available_regions_run in H; cbn [fst] in H; injection H as <-.

Lemma after_last_free (c : ascii) (s : string) :
  Spec.occurs c (Spec.after_last c s) = false.
Proof.
  induction s as [| x t IH]; [reflexivity |].
  cbn [Spec.after_last]. destruct (Spec.occurs c t) eqn:Ht; [exact IH |].
  destruct (Ascii.eqb x c) eqn:Hx; [exact Ht |].
  cbn. now rewrite Hx, Ht.
Qed.

Lemma code_of_stem_no_dash (stem : string) :
  contains "-" (code_of_stem stem) = false.
Proof.
  rewrite code_of_stem_after_last, contains_char. apply after_last_free.
Qed.

Lemma scan_lines_code (lines : list string) (code : string) :
  scan_lines lines = Ok (Some code) -> exists stem, code = code_of_stem stem.
Proof.
  rewrite scan_lines_rule.
  destruct (Spec.first_line_with_prefix "WGConfig" lines) as [line |];
    [| discriminate].
  destruct (Spec.between_first_and_second "=" line) as [field |];
    [| discriminate].
  intros H. injection H as <-. unfold region_code. now eexists.
Qed.

(** An entry of the folded dictionary was there before or was made from a
    [.conf] name of the listing. *)
Lemma fold_scan_entry_inv (names : list string) (regions : Dict.t region_entry)
      (c : string) (e : region_entry) :
  Dict.get (fold_left scan_entry names regions) c = Some e ->
  Dict.get regions c = Some e
  \/ exists f, In f names /\ endswith f ".conf" = true /\ region_code f = c
               /\ e = {| file := os_path_join REGIONS_DIR f;
                         name := str_upper c |}.
Proof.
  revert regions. induction names as [| g names IH]; intros regions H.
  - now left.
  - cbn [fold_left] in H. destruct (IH _ H) as [Hg | (f & Hin & Hf)].
    + destruct (endswith g ".conf") eqn:E.
      * rewrite scan_entry_profile in Hg by exact E.
        destruct (string_dec (region_code g) c) as [Hc | Hc].
        -- subst c. rewrite DictFacts.get_set_same in Hg.
           injection Hg as <-. right. exists g.
           repeat split; [now left | exact E].
        -- rewrite DictFacts.get_set_other in Hg by exact Hc. now left.
      * unfold scan_entry in Hg. rewrite E in Hg. now left.
    + right. exists f. split; [now right | exact Hf].
Qed.

(** X3. The keys of the catalogue are exactly the codes derived from the
    names of the listing that end in [.conf]; and every entry holds the
    path of such a name, joined to REGIONS_DIR, and the upper-cased key. *)
Theorem catalogue_keys_are_derived_codes
        (w : World) (available : Dict.t region_entry) :
  fst (get_available_regions w) = Ok available ->
  (forall code,
      In code (Dict.keys available) <->
      exists names f,
        profiles w = Some names /\ In f names
        /\ endswith f ".conf" = true /\ region_code f = code)
  /\ (forall code e,
         Dict.get available code = Some e ->
         exists names f,
           profiles w = Some names /\ In f names
           /\ endswith f ".conf" = true /\ region_code f = code
           /\ file e = os_path_join REGIONS_DIR f
           /\ name e = str_upper code).
Proof.
  intros Hav. listed Hav.
  assert (Hentry : forall code e,
             Dict.get (catalogue w) code = Some e ->
             exists names f,
               profiles w = Some names /\ In f names
               /\ endswith f ".conf" = true /\ region_code f = code
               /\ file e = os_path_join REGIONS_DIR f
               /\ name e = str_upper code).
  { intros code e. unfold catalogue.
    destruct (profiles w) as [names |]; [| discriminate].
    intros Hget.
    destruct (fold_scan_entry_inv names Dict.empty code e Hget)
      as [Hempty | (f & Hin & Hconf & Hcode & ->)]; [discriminate |].
    exists names, f. repeat split; assumption. }
  split; [| exact Hentry].
  intros code. split.
  - intros Hin. destruct (DictKeys.keys_get _ _ Hin) as [e He].
    destruct (Hentry code e He) as (names & f & Hp & Hf & Hc & Hr & _).
    now exists names, f.
  - intros (names & f & Hp & Hf & Hc & <-).
    destruct (in_split f names Hf) as (pre & post & ->).
    destruct (catalogue_of_profile w pre post f Hp Hc) as [Hmem _].
    unfold Dict.mem in Hmem.
    destruct (Dict.get (catalogue w) (region_code f)) as [e |] eqn:E;
      [| discriminate].
    exact (DictKeys.get_keys _ _ _ E).
Qed.

(** X5. A derived code never holds a [-]: not a key of the catalogue, and
    not the current region, whatever the names and the text of
    proton.conf. *)
Theorem derived_codes_have_no_dash (w : World) :
  (forall available code,
      fst (get_available_regions w) = Ok available ->
      In code (Dict.keys available) ->
      contains "-" code = false)
  /\ (forall code,
         fst (get_current_region w) = Ok (Some code) ->
         contains "-" code = false).
Proof.
  split.
  - intros available code Hav Hin. listed Hav.
    destruct (DictKeys.keys_get _ _ Hin) as [e He].
    unfold catalogue in He.
    destruct (profiles w) as [names |]; [| discriminate].
    destruct (fold_scan_entry_inv names Dict.empty code e He)
      as [Hempty | (f & _ & _ & <- & _)]; [discriminate |].
    apply code_of_stem_no_dash.
  - intros code. rewrite get_current_region_run. cbn [fst].
    unfold current_of.
    destruct (active_config w) as [[| data] |]; try discriminate.
    intros H. destruct (scan_lines_code _ _ H) as [stem ->].
    apply code_of_stem_no_dash.
Qed.

(** X7. For every name of the listing that ends in [.conf], whatever its
    shape, the catalogue maps the code derived from it to the entry of that
    name when no later name of the listing derives the same code: the last
    name of a code wins. *)
Theorem catalogue_last_listed_wins
        (w : World) (pre post : list string) (f : string) :
  profiles w = Some (pre ++ f :: post) ->
  endswith f ".conf" = true ->
  (forall g, In g post -> endswith g ".conf" = true ->
             region_code g <> region_code f) ->
  exists available,
    fst (get_available_regions w) = Ok available
    /\ Dict.get available (region_code f)
       = Some {| file := os_path_join REGIONS_DIR f;
                 name := str_upper (region_code f) |}.
Proof.
  intros Hprof Hconf Hlater. exists (catalogue w).
  rewrite get_available_regions_run. split; [reflexivity |].
  now apply (catalogue_of_profile w pre post f Hprof Hconf).
Qed.

(** X14. For a file name [a.conf] whose stem [a] holds no further
    [.conf], both functions derive the code of the data model, the suffix
    of [a] after its last [-] (all of [a] when it has none): the catalogue
    files the name under that key, and a proton.conf whose path ends in
    that file name gives that code as the current region. *)
Theorem derived_code_follows_data_model (a : string) :
  contains ".conf" a = false ->
  (forall regions,
      scan_entry regions (a ++ ".conf")
      = Dict.set regions (Spec.after_last "-" a)
          {| file := os_path_join REGIONS_DIR (a ++ ".conf");
             name := str_upper (Spec.after_last "-" a) |})
  /\ (forall line field rest,
         startswith line "WGConfig" = true ->
         nth_error (split line "=") 1 = Some field ->
         Spec.after_last "/" (strip field) = (a ++ ".conf")%string ->
         scan_lines (line :: rest) = Ok (Some (Spec.after_last "-" a))).
Proof.
  intros Hconf.
  assert (Hcode : region_code (a ++ ".conf") = Spec.after_last "-" a).
  { unfold region_code. rewrite (replace_conf_suffix a Hconf).
    apply code_of_stem_after_last. }
  split.
  - intros regions. rewrite scan_entry_profile by apply endswith_app.
    now rewrite Hcode.
  - intros line field rest Hline Hfield Hname. cbn [scan_lines].
    rewrite Hline, Hfield.
    unfold os_path_basename. rewrite last_item_split, Hname.
    fold (code_of_stem (replace (a ++ ".conf") ".conf" "")).
    fold (region_code (a ++ ".conf")). rewrite <- Hcode.
    unfold region_code, code_of_stem. now destruct (contains "-" _).
Qed.

End CatalogueKeys.

(** ** More about the controller *)

Section SwitchCases.

Context {host : Host}.

Import Py PyFacts.


(** [update_config] where [open] refuses the write: it raises with the
    files as they were, and [os.chmod] is not reached. *)
Lemma update_config_refused (w : World) (path socks : string) :
  CONFIG_DIR <> "" ->
  can_write w = false ->
  update_config path socks w =
    (Raise WriteError,
     {| fs := fs w; unit_state := unit_state w;
        log := log w ++ [EvMakedirs CONFIG_DIR;
                         EvWrite PROTON_CONFIG (config_text path socks)] |}).
Proof.
  intros Hdir Hwrite. apply String.eqb_neq in Hdir.
  unfold can_write in Hwrite.
  destruct (fs w) as [d |] eqn:Hfs; [| discriminate].
  unfold update_config, bind, makedirs_config_dir, write_proton_config, emit.
  rewrite Hfs, Hdir. cbn [fs unit_state log]. rewrite Hwrite.
  rewrite <- !app_assoc. reflexivity.
Qed.



Lemma switch_region_unknown_run
      (w : World) (request_json : option (Dict.t string)) (code : string) :
  Dict.get (request_data request_json) "region" = Some code ->
  code <> "" ->
  Dict.mem code (catalogue w) = false ->
  switch_region request_json w =
    (Ok (unknown_region code (Dict.keys (catalogue w))),
     {| fs := fs w; unit_state := unit_state w;
        log := log w ++ EvExists REGIONS_DIR ::
                 match profiles w with
                 | Some _ => [EvListdir REGIONS_DIR]
                 | None => []
                 end |}).
Proof.
  intros Hreq Hcode Hmem. apply String.eqb_neq in Hcode.
  unfold switch_region. rewrite Hreq. cbn [falsy]. rewrite Hcode.
  unfold bind. now rewrite get_available_regions_run, Hmem.
Qed.

(** With CONFIG_DIR empty, [os.makedirs] raises before anything is
    written. *)
Lemma switch_region_known_empty_dir
      (w : World) (request_json : option (Dict.t string))
      (code : string) (entry : region_entry) :
  CONFIG_DIR = "" ->
  Dict.get (request_data request_json) "region" = Some code ->
  code <> "" ->
  Dict.get (catalogue w) code = Some entry ->
  switch_region request_json w =
    (Raise FileNotFoundError,
     {| fs := fs w; unit_state := unit_state w;
        log := log w ++ [EvExists REGIONS_DIR; EvListdir REGIONS_DIR;
                         EvMakedirs CONFIG_DIR] |}).
Proof.
  intros Hdir Hreq Hcode Hget.
  destruct (catalogue_entry_has_dir w code entry Hget) as (d & names & Hfs & Hrd).
  assert (Hprof : profiles w = Some names)
    by (unfold profiles; now rewrite Hfs).
  apply String.eqb_neq in Hcode.
  unfold switch_region. rewrite Hreq. cbn [falsy]. rewrite Hcode.
  unfold bind at 1. rewrite get_available_regions_run.
  unfold Dict.mem. rewrite Hget. cbn [negb].
  unfold bind at 1. unfold lift at 1.
  unfold bind at 1. unfold update_config, bind, makedirs_config_dir.
  rewrite Hdir. cbn [String.eqb]. unfold emit. cbn [fs unit_state log].
  rewrite Hprof, <- app_assoc. reflexivity.
Qed.

Lemma start_run_present (w : World) :
  active_config w <> None ->
  start w =
    (Ok match fst (systemctl "start" (unit_state w)) with
        | None => started
        | Some error => manager_failed error
        end,
     {| fs := fs w;
        unit_state := snd (systemctl "start" (unit_state w));
        log := log w ++ [EvExists PROTON_CONFIG;
                         EvRun ["systemctl"; "start"; SERVICE_NAME]] |}).
Proof.
  intros H.
  assert (E : match fs w with
              | Some d => is_some (proton_conf d)
              | None => false
              end = true).
  { unfold active_config in H. destruct (fs w) as [d |]; [| congruence].
    destruct (proton_conf d); [reflexivity | congruence]. }
  unfold start, bind, exists_proton_config. rewrite E.
  cbn [negb]. rewrite run_systemctl_run.
  cbn [emit fs unit_state log].
  destruct (systemctl "start" (unit_state w)) as [[error |] u'];
    cbn [fst snd]; unfold ret; rewrite <- app_assoc; reflexivity.
Qed.

(** With the write refused, the switch raises before the status query. *)
Lemma switch_region_known_refused
      (w : World) (request_json : option (Dict.t string))
      (code : string) (entry : region_entry) :
  CONFIG_DIR <> "" ->
  can_write w = false ->
  Dict.get (request_data request_json) "region" = Some code ->
  code <> "" ->
  Dict.get (catalogue w) code = Some entry ->
  switch_region request_json w =
    (Raise WriteError,
     {| fs := fs w; unit_state := unit_state w;
        log := log w ++ [EvExists REGIONS_DIR; EvListdir REGIONS_DIR;
                         EvMakedirs CONFIG_DIR;
                         EvWrite PROTON_CONFIG
                           (config_text (file entry) DEFAULT_SOCKS_BIND)] |}).
Proof.
  intros Hdir Hwrite Hreq Hcode Hget.
  destruct (catalogue_entry_has_dir w code entry Hget) as (d & names & Hfs & Hrd).
  assert (Hprof : profiles w = Some names)
    by (unfold profiles; now rewrite Hfs).
  apply String.eqb_neq in Hcode.
  unfold switch_region. rewrite Hreq. cbn [falsy]. rewrite Hcode.
  unfold bind at 1. rewrite get_available_regions_run.
  unfold Dict.mem. rewrite Hget. cbn [negb].
  unfold bind at 1. unfold lift at 1.
  unfold bind at 1.
  rewrite update_config_refused by assumption.
  cbn [fs unit_state log]. rewrite Hprof, <- app_assoc. reflexivity.
Qed.

(** What an answer of [switch_region] tells: either it is a 400 and
    nothing changed, or the requested code was in the catalogue, the write
    was possible, the answer is a 200 or a 500, and proton.conf holds the
    text for the entry of the code. *)
Lemma switch_region_returned
      (w w' : World) (request_json : option (Dict.t string))
      (body : json) (st : nat) :
  switch_region request_json w = (Ok (body, st), w') ->
  (st = 400 /\ fs w' = fs w /\ unit_state w' = unit_state w
   /\ forall code,
        Dict.get (request_data request_json) "region" = Some code ->
        code <> "" -> Dict.get (catalogue w) code = None)
  \/ (exists code entry,
         Dict.get (request_data request_json) "region" = Some code
         /\ code <> ""
         /\ Dict.get (catalogue w) code = Some entry
         /\ (st = 200 \/ st = 500)
         /\ fs w'
            = Some {| proton_conf :=
                        Some (Text (config_text (file entry)
                                      DEFAULT_SOCKS_BIND));
                      regions_dir := profiles w;
                      conf_writable := true |}
         /\ unit_state w'
            = (if reports_running (unit_state w)
               then snd (systemctl "restart" (unit_state w))
               else unit_state w)).
Proof.
  intros Hrun.
  destruct (Dict.get (request_data request_json) "region") as [code |] eqn:Hreq.
  2:{ unfold switch_region in Hrun. rewrite Hreq in Hrun.
      injection Hrun as _ <- <-. left. repeat split. discriminate. }
  destruct (String.eqb code "") eqn:Hcode.
  { unfold switch_region in Hrun. rewrite Hreq in Hrun.
    cbn [falsy] in Hrun. rewrite Hcode in Hrun.
    injection Hrun as _ <- <-. left. repeat split.
    intros code0 [= <-] Hne. apply String.eqb_eq in Hcode. contradiction. }
  apply String.eqb_neq in Hcode.
  destruct (Dict.get (catalogue w) code) as [entry |] eqn:Hget.
  2:{ assert (Hmem : Dict.mem code (catalogue w) = false)
        by (unfold Dict.mem; now rewrite Hget).
      rewrite (switch_region_unknown_run w request_json code Hreq Hcode Hmem)
        in Hrun.
      injection Hrun as _ <- <-. left. repeat split.
      now intros code0 [= <-] _. }
  destruct (String.eqb CONFIG_DIR "") eqn:Hdir.
  { apply String.eqb_eq in Hdir.
    rewrite (switch_region_known_empty_dir w request_json code entry
               Hdir Hreq Hcode Hget) in Hrun.
    discriminate Hrun. }
  apply String.eqb_neq in Hdir.
  destruct (can_write w) eqn:Hwrite.
  2:{ rewrite (switch_region_known_refused w request_json code entry
                 Hdir Hwrite Hreq Hcode Hget) in Hrun.
      discriminate Hrun. }
  rewrite (switch_region_known w request_json code entry
             Hdir Hwrite Hreq Hcode Hget) in Hrun.
  right. exists code, entry.
  destruct (reports_running (unit_state w)).
  - destruct (fst (systemctl "restart" (unit_state w)));
      injection Hrun as _ <- <-; repeat split; tauto.
  - injection Hrun as _ <- <-. repeat split; tauto.
Qed.

(** The current region that the written file gives is the requested code. *)
Lemma current_of_switched
      (w : World) (code : string) (entry : region_entry) :
  Dict.get (catalogue w) code = Some entry ->
  (forall names g, profiles w = Some names -> In g names ->
                   Spec.occurs "/" g = false) ->
  Spec.occurs "=" (file entry) = false ->
  Spec.occurs "010" (file entry) = false ->
  Spec.occurs "013" (file entry) = false ->
  current_of (Some (Text (config_text (file entry) DEFAULT_SOCKS_BIND)))
  = Ok (Some code).
Proof.
  intros Hget Hnames Heq Hlf Hcr.
  unfold catalogue in Hget. destruct (profiles w) as [names |] eqn:Hprof;
    [| discriminate].
  destruct (fold_scan_inv names Dict.empty code entry Hget)
    as [Hempty | (f & Hin & Hconf & Hc & Hpath)]; [discriminate |].
  rewrite Hpath in *. subst code.
  apply current_of_written; try assumption.
  now apply (Hnames names).
Qed.

End SwitchCases.

Section ControllerMore.

Context {host : Host}.

Import Py PyFacts.

Ltac listed H :=
  rewrite get_available_regions_run in H; cbn [fst] in H; injection H as <-.



(** X1. When a switch to a region of the catalogue returns an answer,
    whether or not a restart was needed or worked, the current region read
    afterwards is the requested code, provided the path written holds no
    [=], line feed or carriage return (and, as for every directory listing,
    the names hold no slash). *)
Theorem switch_then_current_region
        (w w' : World) (request_json : option (Dict.t string))
        (code : string) (available : Dict.t region_entry)
        (entry : region_entry) (body : json) (st : nat) :
  Dict.get (request_data request_json) "region" = Some code ->
  code <> "" ->
  fst (get_available_regions w) = Ok available ->
  Dict.get available code = Some entry ->
  (forall names g, profiles w = Some names -> In g names ->
                   Spec.occurs "/" g = false) ->
  Spec.occurs "=" (file entry) = false ->
  Spec.occurs "010" (file entry) = false ->
  Spec.occurs "013" (file entry) = false ->
  switch_region request_json w = (Ok (body, st), w') ->
  fst (get_current_region w') = Ok (Some code).
Proof.
  intros Hreq Hcode Hav Hget Hnames Heq Hlf Hcr Hrun. listed Hav.
  destruct (switch_region_returned w w' request_json body st Hrun)
    as [(_ & _ & _ & Hnone)
       | (code0 & entry0 & Hreq0 & _ & Hget0 & _ & Hfs & _)].
  - rewrite (Hnone code Hreq Hcode) in Hget. discriminate Hget.
  - rewrite Hreq in Hreq0. injection Hreq0 as <-.
    rewrite Hget in Hget0. injection Hget0 as <-.
    rewrite get_current_region_run. cbn [fst].
    unfold active_config. rewrite Hfs. cbn [proton_conf].
    exact (current_of_switched w code entry Hget Hnames Heq Hlf Hcr).
Qed.


(** X6. A request for a code that holds a [-] is always answered with
    "Unknown region" and status 400, whatever the regions directory holds,
    and leaves the files and the unit as they were. *)
Theorem switch_region_dash_code_is_unknown
        (w : World) (request_json : option (Dict.t string)) (code : string) :
  Dict.get (request_data request_json) "region" = Some code ->
  contains "-" code = true ->
  exists available,
    fst (get_available_regions w) = Ok available
    /\ fst (switch_region request_json w)
       = Ok (unknown_region code (Dict.keys available))
    /\ fs (snd (switch_region request_json w)) = fs w
    /\ unit_state (snd (switch_region request_json w)) = unit_state w.
Proof.
  intros Hreq Hdash. exists (catalogue w).
  rewrite get_available_regions_run. split; [reflexivity |].
  assert (Hcode : code <> "") by (intros ->; discriminate Hdash).
  assert (Hmem : Dict.mem code (catalogue w) = false).
  { unfold Dict.mem. destruct (Dict.get (catalogue w) code) as [e |] eqn:E;
      [| reflexivity].
    unfold catalogue in E. destruct (profiles w) as [names |]; [| discriminate].
    destruct (fold_scan_entry_inv names Dict.empty code e E)
      as [Hempty | (f & _ & _ & <- & _)]; [discriminate |].
    unfold region_code in Hdash. now rewrite code_of_stem_no_dash in Hdash. }
  rewrite (switch_region_unknown_run w request_json code Hreq Hcode Hmem).
  repeat split.
Qed.



(** X10. With CONFIG_DIR empty (PROTON_CONFIG_DIR set to the empty
    string), a switch to a region of the catalogue raises
    FileNotFoundError from [os.makedirs]: nothing is written and the unit
    is not touched. *)
Theorem switch_region_raises_with_empty_config_dir
        (w : World) (request_json : option (Dict.t string))
        (code : string) (available : Dict.t region_entry)
        (entry : region_entry) :
  CONFIG_DIR = "" ->
  Dict.get (request_data request_json) "region" = Some code ->
  code <> "" ->
  fst (get_available_regions w) = Ok available ->
  Dict.get available code = Some entry ->
  fst (switch_region request_json w) = Raise FileNotFoundError
  /\ fs (snd (switch_region request_json w)) = fs w
  /\ unit_state (snd (switch_region request_json w)) = unit_state w.
Proof.
  intros Hdir Hreq Hcode Hav Hget. listed Hav.
  rewrite (switch_region_known_empty_dir w request_json code entry
             Hdir Hreq Hcode Hget).
  repeat split.
Qed.

(** X11. When a switch to a region of the catalogue returns an answer,
    the status asked right after it names the requested code as the region
    and reports the unit as the service manager then shows it, whether or
    not the restart worked; the path written holds no [=], line feed or
    carriage return, and the names of the listing hold no slash. *)
Theorem status_after_switch
        (w w' : World) (request_json : option (Dict.t string))
        (code : string) (available : Dict.t region_entry)
        (entry : region_entry) (body : json) (st : nat) :
  Dict.get (request_data request_json) "region" = Some code ->
  code <> "" ->
  fst (get_available_regions w) = Ok available ->
  Dict.get available code = Some entry ->
  (forall names g, profiles w = Some names -> In g names ->
                   Spec.occurs "/" g = false) ->
  Spec.occurs "=" (file entry) = false ->
  Spec.occurs "010" (file entry) = false ->
  Spec.occurs "013" (file entry) = false ->
  switch_region request_json w = (Ok (body, st), w') ->
  fst (status w')
  = Ok (JObj [("running", JBool (reports_running (unit_state w')));
              ("region", JStr code);
              ("config_file", JStr PROTON_CONFIG)], 200).
Proof.
  intros Hreq Hcode Hav Hget Hnames Heq Hlf Hcr Hrun. listed Hav.
  destruct (switch_region_returned w w' request_json body st Hrun)
    as [(_ & _ & _ & Hnone)
       | (code0 & entry0 & Hreq0 & _ & Hget0 & _ & Hfs & _)].
  - rewrite (Hnone code Hreq Hcode) in Hget. discriminate Hget.
  - rewrite Hreq in Hreq0. injection Hreq0 as <-.
    rewrite Hget in Hget0. injection Hget0 as <-.
    rewrite status_run. unfold active_config. rewrite Hfs.
    cbn [proton_conf].
    now rewrite (current_of_switched w code entry Hget Hnames Heq Hlf Hcr).
Qed.

(** X12. The two queries only look: [status] and [regions] leave the files
    and the unit as they were on every world, also when they raise, and
    the calls they make are the status query of the unit, existence tests,
    one listing and one read. *)
Theorem queries_change_nothing (w : World) :
  snd (status w)
  = {| fs := fs w; unit_state := unit_state w;
       log := log w ++ EvRun ["systemctl"; "is-active"; SERVICE_NAME]
                    :: EvExists PROTON_CONFIG
                    :: match active_config w with
                       | Some _ => [EvRead PROTON_CONFIG]
                       | None => []
                       end |}
  /\ snd (regions w)
     = {| fs := fs w; unit_state := unit_state w;
          log := (log w ++ EvExists REGIONS_DIR
                        :: match profiles w with
                           | Some _ => [EvListdir REGIONS_DIR]
                           | None => []
                           end)
                 ++ EvExists PROTON_CONFIG
                    :: match active_config w with
                       | Some _ => [EvRead PROTON_CONFIG]
                       | None => []
                       end |}.
Proof.
  split.
  - unfold status, bind. rewrite get_service_status_run, get_current_region_run.
    cbn [emit fs unit_state log].
    change (active_config (emit _ w)) with (active_config w).
    destruct (current_of (active_config w)); cbn [snd];
      rewrite <- app_assoc; reflexivity.
  - unfold regions, bind. rewrite get_available_regions_run.
    rewrite get_current_region_run. cbn [fs unit_state log].
    match goal with
    | |- context [current_of (active_config ?x)] =>
        change (active_config x) with (active_config w)
    end.
    destruct (current_of (active_config w)); reflexivity.
Qed.

(** X13. After a switch that was answered with a status other than 400,
    so also after one whose restart failed, [start] no longer answers "No
    configuration found": it runs [systemctl start] and answers by its
    outcome. *)
Theorem start_after_switch
        (w w' : World) (request_json : option (Dict.t string))
        (body : json) (st : nat) :
  switch_region request_json w = (Ok (body, st), w') ->
  st <> 400 ->
  fst (start w')
  = Ok match fst (systemctl "start" (unit_state w')) with
       | None => started
       | Some error => manager_failed error
       end.
Proof.
  intros Hrun Hst.
  destruct (switch_region_returned w w' request_json body st Hrun)
    as [(-> & _) | (code & entry & _ & _ & _ & _ & Hfs & _)];
    [now contradiction Hst |].
  rewrite start_run_present; [reflexivity |].
  unfold active_config. rewrite Hfs. discriminate.
Qed.

End ControllerMore.

(** ** The properties on the lab host *)

Module OnLab.

Import Lab.

(** C1, at the input where it fails. The regions directory holds
    [x-j=p.conf], so [j=p] is a key of the catalogue. The switch to [j=p]
    succeeds, and the current region read back from the file it wrote is
    [j], not [j=p]: the path is cut at its [=]. *)
Theorem switch_then_current_region_cut_at_equals :
  let w := world ["x-j=p.conf"] None down in
  Dict.mem "j=p" (@catalogue host w) = true
  /\ fst (@switch_region host (ask "j=p") w) = Ok (switched "j=p" false)
  /\ fst (@get_current_region host (snd (@switch_region host (ask "j=p") w)))
     = Ok (Some "j").
Proof. vm_compute. repeat split. Qed.

(** The two scenarios of the specification: a switch with the daemon
    stopped does not restart it, a switch with the daemon running restarts
    it once; the status that follows names the new region. *)
Example scenario_daemon_stopped :
  fst (@switch_region host (ask "jp") (world jp_us None down))
  = Ok (switched "jp" false)
  /\ fst (@status host (snd (@switch_region host (ask "jp")
                                (world jp_us None down))))
     = Ok (JObj [("running", JBool false); ("region", JStr "jp");
                 ("config_file", JStr "/etc/wireproxy/proton.conf")], 200).
Proof. vm_compute. split; reflexivity. Qed.

Example scenario_daemon_running :
  fst (@switch_region host (ask "us") (world jp_us None up))
  = Ok (switched "us" true)
  /\ List.filter
       (fun e => match e with
                 | EvRun ["systemctl"; "restart"; _] => true
                 | _ => false
                 end)
       (log (snd (@switch_region host (ask "us") (world jp_us None up))))
     = [EvRun ["systemctl"; "restart"; "wireproxy-proton"]]
  /\ fst (@status host (snd (@switch_region host (ask "us")
                                (world jp_us None up))))
     = Ok (JObj [("running", JBool true); ("region", JStr "us");
                 ("config_file", JStr "/etc/wireproxy/proton.conf")], 200).
Proof. vm_compute. repeat split. Qed.

(** With no proton.conf there is no current region. *)
Lemma current_region_without_config :
  fst (@get_current_region host (world jp_us None down)) = Ok None.
Proof. reflexivity. Qed.

(** C6 as first stated does not hold: with [a-jp.conf] listed before
    [b-jp.conf], the key [jp] maps to the path of the second file. *)
Lemma list_regions_collision_keeps_last :
  ~ (forall (w : @World host) (names : list string) (X Y : string),
        profiles w = Some names ->
        In (X ++ "-" ++ Y ++ ".conf")%string names ->
        exists available,
          fst (get_available_regions w) = Ok available
          /\ option_map file (Dict.get available Y)
             = Some (Py.os_path_join (@REGIONS_DIR host)
                       (X ++ "-" ++ Y ++ ".conf"))).
Proof.
  intros H.
  destruct (H (world ["a-jp.conf"; "b-jp.conf"] None down) _ "a" "jp"
              eq_refl (or_introl eq_refl)) as (available & Hav & Hget).
  vm_compute in Hav. injection Hav as <-.
  vm_compute in Hget. discriminate Hget.
Qed.

Lemma switch_region_empty_request_witness :
  falsy (Dict.get (request_data (ask "")) "region") = true
  /\ @switch_region host (ask "") (world jp_us None up)
     = (Ok region_required, world jp_us None up).
Proof.
  split; [reflexivity |].
  apply (@switch_region_empty_request_touches_nothing host); reflexivity.
Defined.

Lemma switch_region_unknown_witness :
  exists w' calls,
    @switch_region host (ask "xx") (world jp_us None up)
    = (Ok (unknown_region "xx" ["jp"; "us"]), w')
    /\ fs w' = fs (world jp_us None up)
    /\ unit_state w' = up
    /\ log w' = [] ++ calls
    /\ forallb read_only calls = true.
Proof.
  apply (@switch_region_unknown_leaves_config host
           (world jp_us None up) (ask "xx") "xx"
           [("jp", {| file := "/etc/wireproxy/regions/proton-jp.conf";
                      name := "JP" |});
            ("us", {| file := "/etc/wireproxy/regions/proton-us.conf";
                      name := "US" |})]);
    [reflexivity | discriminate | reflexivity | reflexivity].
Defined.



Lemma start_requires_config_witness :
  active_config (world jp_us None down) = None
  /\ @start host (world jp_us None down)
     = (Ok not_configured,
        emit (EvExists "/etc/wireproxy/proton.conf") (world jp_us None down)).
Proof.
  split; [reflexivity |].
  apply (proj1 (proj2 (@start_requires_config host (world jp_us None down))));
    reflexivity.
Defined.

Lemma stop_twice_witness :
  (forall w0 : @World host,
      log (snd (stop w0))
      = log w0 ++ [EvRun ["systemctl"; "stop"; "wireproxy-proton"]])
  /\ exists w1 w2,
       @stop host (world jp_us None up) = (Ok stopped, w1)
       /\ stop w1 = (Ok stopped, w2)
       /\ unit_state w1 = down
       /\ fs w2 = fs (world jp_us None up).
Proof.
  apply (@stop_twice_succeeds host (world jp_us None up) down);
    [reflexivity | reflexivity | intros u _; reflexivity].
Defined.

Lemma status_raises_witness :
  active_config (world jp_us (Some (Text "WGConfig")) up)
  = Some (Text "WGConfig")
  /\ fst (@get_current_region host (world jp_us (Some (Text "WGConfig")) up))
     = Raise IndexError
  /\ fst (@status host (world jp_us (Some (Text "WGConfig")) up))
     = Raise IndexError.
Proof.
  split; [reflexivity |].
  apply (proj1 (@status_raises_on_line_without_equals host
                  (world jp_us (Some (Text "WGConfig")) up)));
    reflexivity.
Defined.

Lemma list_regions_witness :
  exists available,
    fst (@get_available_regions host
           (world ["proton-jp.conf"; "proton-us.conf"; "jp.conf"; "notes.txt"]
              None down)) = Ok available
    /\ Dict.mem "us" available = true
    /\ option_map file (Dict.get available "us")
       = Some "/etc/wireproxy/regions/proton-us.conf".
Proof.
  destruct (proj1 (@list_regions_maps_code_to_last_profile host
                     (world ["proton-jp.conf"; "proton-us.conf"; "jp.conf";
                             "notes.txt"] None down))
              ["proton-jp.conf"] ["jp.conf"; "notes.txt"] "proton" "us"
              eq_refl eq_refl eq_refl)
    as (available & Hlisted & Hkey & Hpath).
  exists available. split; [exact Hlisted | split; [exact Hkey |]].
  apply Hpath. intros g Hin Hconf Hcode.
  repeat (destruct Hin as [<- | Hin];
          [vm_compute in Hconf, Hcode; discriminate |]).
  destruct Hin.
Defined.

Lemma current_region_parsing_witness :
  active_config
    (world jp_us
       (Some (Text ("WGConfigBackup = /r/a-jp.conf" ++ nl ++
                    "WGConfig = /r/b-us.conf")))
       down)
  = Some (Text ("WGConfigBackup = /r/a-jp.conf" ++ nl ++
                "WGConfig = /r/b-us.conf"))
  /\ fst (@get_current_region host
            (world jp_us
               (Some (Text ("WGConfigBackup = /r/a-jp.conf" ++ nl ++
                            "WGConfig = /r/b-us.conf")))
               down))
     = Ok (Some "jp")
  /\ Spec.between_first_and_second "="
       ("WGConfig = " ++ "/etc/x" ++ "=" ++ "y/proton-jp.conf")
     = Some " /etc/x".
Proof.
  split; [reflexivity |].
  destruct (@current_region_reads_first_prefixed_line host
              (world jp_us
                 (Some (Text ("WGConfigBackup = /r/a-jp.conf" ++ nl ++
                              "WGConfig = /r/b-us.conf")))
                 down)
              ("WGConfigBackup = /r/a-jp.conf" ++ nl ++
               "WGConfig = /r/b-us.conf")
              eq_refl) as [Hfirst Hcut].
  split; [exact Hfirst | exact (Hcut "/etc/x" "y/proton-jp.conf" eq_refl)].
Defined.

Lemma conf_is_deleted_witness :
  Py.contains ".conf" "a-b" = false
  /\ Py.replace "a-b.confc.conf" ".conf" "" = "a-bc"
  /\ fst (@get_available_regions host
            (world ["a-b.confc.conf"]
               (Some (Text "WGConfig = /etc/wireproxy/regions/a-b.confc.conf"))
               down))
     = Ok [("bc", {| file := "/etc/wireproxy/regions/a-b.confc.conf";
                     name := "BC" |})]
  /\ fst (@get_current_region host
            (world ["a-b.confc.conf"]
               (Some (Text "WGConfig = /etc/wireproxy/regions/a-b.confc.conf"))
               down))
     = Ok (Some "bc").
Proof.
  split; [reflexivity |].
  destruct (@conf_is_deleted_everywhere host
              (world ["a-b.confc.conf"]
                 (Some (Text "WGConfig = /etc/wireproxy/regions/a-b.confc.conf"))
                 down))
    as (Hreplace & _ & _ & Hlist & Hcurrent & _).
  split; [exact (Hreplace "a-b" "c.conf" eq_refl) |].
  split; [exact (Hlist eq_refl) | exact (Hcurrent eq_refl)].
Defined.

(** *** The further properties on the lab host *)

Ltac no_slash :=
  let names := fresh in
  let g := fresh in
  let Hnames := fresh in
  let Hin := fresh in
  intros names g Hnames Hin; injection Hnames as <-;
  repeat (destruct Hin as [<- | Hin]; [reflexivity |]); destruct Hin.

Lemma switch_then_current_region_witness :
  fst (@get_current_region host
         (snd (@switch_region host (ask "us") (world jp_us None broken))))
  = Ok (Some "us").
Proof.
  apply (@switch_then_current_region host (world jp_us None broken)
           (snd (@switch_region host (ask "us") (world jp_us None broken)))
           (ask "us") "us" jp_us_catalogue us_entry
           (fst (restart_failed "exit status 1")) 500);
    try reflexivity; try discriminate.
  no_slash.
Defined.


Lemma catalogue_keys_witness :
  fst (@get_available_regions host (world jp_us None down))
  = Ok jp_us_catalogue
  /\ (forall code,
         In code (Dict.keys jp_us_catalogue) <->
         exists names f,
           profiles (world jp_us None down) = Some names /\ In f names
           /\ Py.endswith f ".conf" = true /\ region_code f = code).
Proof.
  split; [reflexivity |].
  apply (proj1 (@catalogue_keys_are_derived_codes host
                  (world jp_us None down) jp_us_catalogue eq_refl)).
Defined.

Lemma derived_codes_no_dash_witness :
  fst (@get_available_regions host (world ["proton-us-east.conf"] None down))
  = Ok [("east", {| file := "/etc/wireproxy/regions/proton-us-east.conf";
                    name := "EAST" |})]
  /\ Py.contains "-" "east" = false.
Proof.
  split; [reflexivity |].
  apply (proj1 (@derived_codes_have_no_dash host
                  (world ["proton-us-east.conf"] None down))
           [("east", {| file := "/etc/wireproxy/regions/proton-us-east.conf";
                        name := "EAST" |})] "east");
    [reflexivity | now left].
Defined.

Lemma derived_code_data_model_witness :
  Py.contains ".conf" "proton-jp" = false
  /\ (forall regions,
         @scan_entry host regions "proton-jp.conf"
         = Dict.set regions "jp"
             {| file := "/etc/wireproxy/regions/proton-jp.conf";
                name := "JP" |})
  /\ scan_lines ["WGConfig = /etc/wireproxy/regions/proton-jp.conf"]
     = Ok (Some "jp").
Proof.
  split; [reflexivity |].
  destruct (@derived_code_follows_data_model host "proton-jp" eq_refl)
    as [Hlist Hcurrent].
  split; [exact Hlist |].
  exact (Hcurrent "WGConfig = /etc/wireproxy/regions/proton-jp.conf"
           " /etc/wireproxy/regions/proton-jp.conf" [] eq_refl eq_refl eq_refl).
Defined.

Lemma switch_region_dash_code_witness :
  exists available,
    fst (@get_available_regions host (world ["proton-us-east.conf"] None up))
    = Ok available
    /\ fst (@switch_region host (ask "us-east")
              (world ["proton-us-east.conf"] None up))
       = Ok (unknown_region "us-east" (Dict.keys available))
    /\ fs (snd (@switch_region host (ask "us-east")
                  (world ["proton-us-east.conf"] None up)))
       = fs (world ["proton-us-east.conf"] None up)
    /\ unit_state (snd (@switch_region host (ask "us-east")
                          (world ["proton-us-east.conf"] None up)))
       = up.
Proof.
  apply (@switch_region_dash_code_is_unknown host
           (world ["proton-us-east.conf"] None up) (ask "us-east") "us-east");
    reflexivity.
Defined.

Lemma catalogue_last_listed_witness :
  exists available,
    fst (@get_available_regions host
           (world ["a-jp.conf"; "b-jp.conf"; "us.conf"] None down))
    = Ok available
    /\ Dict.get available (region_code "b-jp.conf")
       = Some {| file := Py.os_path_join (@REGIONS_DIR host) "b-jp.conf";
                 name := upper (region_code "b-jp.conf") |}.
Proof.
  apply (@catalogue_last_listed_wins host
           (world ["a-jp.conf"; "b-jp.conf"; "us.conf"] None down)
           ["a-jp.conf"] ["us.conf"] "b-jp.conf");
    [reflexivity | reflexivity |].
  intros g Hin Hconf Hcode.
  repeat (destruct Hin as [<- | Hin];
          [vm_compute in Hcode; discriminate |]).
  destruct Hin.
Defined.



Lemma switch_region_empty_config_dir_witness :
  fst (@switch_region host_empty_dir (ask "jp")
         (world_empty_dir jp_us None up)) = Raise FileNotFoundError
  /\ fs (snd (@switch_region host_empty_dir (ask "jp")
                (world_empty_dir jp_us None up)))
     = fs (world_empty_dir jp_us None up)
  /\ unit_state (snd (@switch_region host_empty_dir (ask "jp")
                        (world_empty_dir jp_us None up))) = up.
Proof.
  apply (@switch_region_raises_with_empty_config_dir host_empty_dir
           (world_empty_dir jp_us None up) (ask "jp") "jp"
           [("jp", {| file := "regions/proton-jp.conf"; name := "JP" |});
            ("us", {| file := "regions/proton-us.conf"; name := "US" |})]
           {| file := "regions/proton-jp.conf"; name := "JP" |});
    try reflexivity; discriminate.
Defined.

Lemma status_after_switch_witness :
  fst (@status host
         (snd (@switch_region host (ask "us") (world jp_us None broken))))
  = Ok (JObj [("running",
               JBool (reports_running
                        (unit_state (snd (@switch_region host (ask "us")
                                            (world jp_us None broken))))));
              ("region", JStr "us");
              ("config_file", JStr (@PROTON_CONFIG host))], 200).
Proof.
  apply (@status_after_switch host (world jp_us None broken)
           (snd (@switch_region host (ask "us") (world jp_us None broken)))
           (ask "us") "us" jp_us_catalogue us_entry
           (fst (restart_failed "exit status 1")) 500);
    try reflexivity; try discriminate.
  no_slash.
Defined.

Lemma start_after_switch_witness :
  fst (@start host
         (snd (@switch_region host (ask "us") (world jp_us None broken))))
  = Ok (manager_failed "exit status 1").
Proof.
  apply (@start_after_switch host (world jp_us None broken)
           (snd (@switch_region host (ask "us") (world jp_us None broken)))
           (ask "us") (fst (restart_failed "exit status 1")) 500);
    [reflexivity | discriminate].
Defined.

End OnLab.
